(** * Cross-reference annotation of source code: [analyze_code.js]

    A shallow embedding of the cross-reference collector of
    [src/analyze_code.js] ([linkToDefinitions], [getRemoteLink],
    [createDefinition], [createRef], [embed], [idFor], [getStatement],
    [isDefinition]) and the properties its specification states about it.

    The TypeScript parser and type checker are external: the syntax tree is
    a heap of node objects addressed by identity, and the checker is an
    oracle from nodes to symbols. *)

From Stdlib Require Import String Ascii List Bool Arith Lia.
From stdpp Require Import base option list gmap strings pretty.

Open Scope string_scope.
Set Warnings "-register-all".

(** ** The syntax tree, as the TypeScript parser hands it over *)

(** A node object is known by its identity ([===] in the source). *)
Definition NodeId := positive.

(** The syntax kinds the source tests for ([node.kind], [ts.isXxx]). *)
Inductive SyntaxKind :=
| Identifier | StringLiteral | SourceFile | Block | ModuleBlock
| CaseClause | DefaultClause
| ImportDeclaration | ExportDeclaration | ImportEqualsDeclaration
| ExternalModuleReference | ImportClause | NamespaceImport
| NamedImports | NamedExports | ImportSpecifier | ExportSpecifier
| ParameterDeclaration | OtherKind.

#[global] Instance SyntaxKind_eq_dec : EqDecision SyntaxKind.
Proof. solve_decision. Defined.

(** The properties and methods of [ts.Node] the source reads.  [getStart],
    [getEnd], [getText] and [getSourceFile] are methods of the parser's
    objects; [text] is the [.text] property, which the source reads from
    string literals and identifiers only; the remaining fields are the
    optional child links ([undefined] is [None]). *)
Record Node := mkNode {
  kind : SyntaxKind;
  getStart : nat;
  getEnd : nat;
  getText : string;
  text : string;
  getSourceFile : NodeId;
  fileName : string;
  parent : option NodeId;
  children : list NodeId;
  name : option NodeId;
  propertyName : option NodeId;
  moduleSpecifier : option NodeId;
  moduleReference : option NodeId;
  expression : option NodeId
}.

(** [ts.Symbol]: identity, [name], [declarations], [valueDeclaration] and,
    for a module symbol, the values of its [exports] table in order. *)
Inductive Symbol := mkSymbol {
  symId : positive;
  symName : string;
  declarations : option (list NodeId);
  valueDeclaration : option NodeId;
  exports : option (list Symbol)
}.

(** ** Tokens and replacements ([./types], [./replacements]) *)

Record Token := mkToken {
  t_start : nat;
  t_safe : bool;
  t_content : string
}.

(** Modelled from the spec: [safe] and [unsafe] of [./replacements], the two
    constructors of a token: already rendered markup, and raw source text that
    is escaped when the output is rendered. *)
Definition safe (start : nat) (content : string) : Token :=
  mkToken start true content.

Definition unsafe (start : nat) (content : string) : Token :=
  mkToken start false content.

(** [{ start, end, with }] *)
Record Replacement := mkReplacement {
  r_start : nat;
  r_end : nat;
  r_with : list Token
}.

(** The [content] argument of [createDefinition] and [createRef]:
    [string | Token | Token[]]. *)
Inductive Content :=
| CString (s : string)
| CToken (t : Token)
| CTokens (ts : list Token).

(** ** State and failure *)

(** What the pass can touch: the module-level [idCache], the console, and
    the [replacements] array the visitor closes over. *)
Record State := mkState {
  idCache : gmap NodeId string;
  console : list (string * Symbol);
  replacements : list Replacement
}.

(** A call returns, throws (a [TypeError] on a property of [undefined]), or
    exhausts the fuel given to the parent walks.  The state at the time of
    the throw is kept: nothing in the source rolls it back. *)
Inductive outcome (A : Type) :=
| Ret (a : A)
| Throw (e : string)
| Diverge.
Arguments Ret {A} a.
Arguments Throw {A} e.
Arguments Diverge {A}.

Definition M (A : Type) : Type := State -> outcome A * State.

Definition ret {A} (a : A) : M A := fun st => (Ret a, st).

Definition bind {A B} (m : M A) (k : A -> M B) : M B :=
  fun st =>
    match m st with
    | (Ret a, st') => k a st'
    | (Throw e, st') => (Throw e, st')
    | (Diverge, st') => (Diverge, st')
    end.

Declare Scope js_scope.
Delimit Scope js_scope with js.
Notation "x <~ c1 ;; c2" := (bind c1 (fun x => c2))
  (at level 100, c1 at next level, right associativity) : js_scope.
Notation "c1 ;;; c2" := (bind c1 (fun _ => c2))
  (at level 100, right associativity) : js_scope.
Open Scope js_scope.

Definition throw {A} (e : string) : M A := fun st => (Throw e, st).
Definition diverge {A} : M A := fun st => (Diverge, st).

Definition typeError : string := "TypeError".

(** Reading a property of [o]: a [TypeError] when [o] is [undefined]. *)
Definition deref {A} (o : option A) : M A :=
  match o with
  | Some a => ret a
  | None => throw typeError
  end.

(** A parent walk that ran out of fuel. *)
Definition liftFuel {A} (o : option A) : M A :=
  match o with
  | Some a => ret a
  | None => diverge
  end.

Definition push (r : Replacement) : M unit :=
  fun st => (Ret tt, mkState (idCache st) (console st) (replacements st ++ [r])).

Definition consoleLog (msg : string) (s : Symbol) : M unit :=
  fun st => (Ret tt, mkState (idCache st) (console st ++ [(msg, s)]) (replacements st)).

Definition cacheGet (n : NodeId) : M (option string) :=
  fun st => (Ret (idCache st !! n), st).

Definition cacheSet (n : NodeId) (id : string) : M unit :=
  fun st => (Ret tt, mkState (<[n := id]> (idCache st)) (console st) (replacements st)).

Definition cacheClear : M unit :=
  fun st => (Ret tt, mkState ∅ (console st) (replacements st)).

Fixpoint forEach {A} (l : list A) (f : A -> M unit) : M unit :=
  match l with
  | [] => ret tt
  | x :: l' => f x ;;; forEach l' f
  end.

(** The double quote, for the markup the source writes in template literals. *)
Definition dq : string := String "034"%char EmptyString.

(** [String.prototype.substring(start, end)]: the arguments are swapped when
    out of order, and clamped to the string. *)
Definition jsSubstring (s : string) (a b : nat) : string :=
  String.substring (Nat.min a b) (Nat.max a b - Nat.min a b) s.



(** ** The collector *)

Section Collector.

(** [escapeHtml] of [./utils]: an external utility on strings. *)
Variable escapeHtml : string -> string.

(** The parsed program: every node reference leads to a node object. *)
Variable ast : NodeId -> Node.

(** The symbol-resolution oracle, [typeChecker.getSymbolAtLocation]. *)
Variable getSymbolAtLocation : NodeId -> option Symbol.

(** [ts.isSourceFile(n) || ts.isBlock(n) || ts.isModuleBlock(n) ||
    ts.isCaseOrDefaultClause(n)] *)
Definition isStatementContainer (n : NodeId) : bool :=
  match kind (ast n) with
  | SourceFile | Block | ModuleBlock | CaseClause | DefaultClause => true
  | _ => false
  end.

Definition isKind (k : SyntaxKind) (n : NodeId) : bool :=
  bool_decide (kind (ast n) = k).

(** [getStatement(node)]: the [while] loop over [statement.parent]; [None]
    when the fuel does not reach the end of the parent chain. *)
Fixpoint getStatement (fuel : nat) (statement : NodeId) : option NodeId :=
  match fuel with
  | O => None
  | S fuel' =>
    match parent (ast statement) with
    | Some p =>
      if isStatementContainer p then Some statement
      else getStatement fuel' p
    | None => Some statement
    end
  end.

(** The inner [check(node)] of [idFor]: the nearest parameter at or above
    [node], or [false]. *)
Fixpoint check (fuel : nat) (node : option NodeId) : option (option NodeId) :=
  match fuel with
  | O => None
  | S fuel' =>
    match node with
    | None => Some None
    | Some n =>
      if isKind ParameterDeclaration n then Some (Some n)
      else check fuel' (parent (ast n))
    end
  end.

(** [a === b] where [a] is a possibly undefined node and [b] a node. *)
Definition sameNode (a : option NodeId) (b : NodeId) : bool :=
  bool_decide (a = Some b).

(** [a === b] on possibly undefined symbol objects. *)
Definition sameSymbol (a b : option Symbol) : bool :=
  match a, b with
  | Some x, Some y => bool_decide (symId x = symId y)
  | None, None => true
  | _, _ => false
  end.

(** [typeChecker.getSymbolAtLocation(n)] where [n] may be [undefined]: the
    checker answers [undefined] for it. *)
Definition symbolAt (n : option NodeId) : option Symbol :=
  match n with
  | Some n' => getSymbolAtLocation n'
  | None => None
  end.

(** [getRemoteLink(node, statement)] *)
Definition getRemoteLink (node statement : NodeId) : M string :=
  specifier <~ deref (moduleSpecifier (ast statement)) ;;
  p <~ deref (parent (ast node)) ;;
  exported <~
    match propertyName (ast p) with
    | Some pn => ret (text (ast pn))
    | None =>
      gp <~ deref (parent (ast p)) ;;
      if isKind NamedImports gp || isKind NamedExports gp
      then (nm <~ deref (name (ast p)) ;; ret (text (ast nm)))
      else ret "default"
    end ;;
  ret (text (ast specifier) +:+ "#" +:+ exported).

(** [embed(start, content)] *)
Definition embed (start : nat) (content : Content) : list Token :=
  match content with
  | CTokens ts => ts
  | CString s => [unsafe start s]
  | CToken t => [t]
  end.

(** [createDefinition(start, id, content, length)].  Where the source leaves
    [length] to its default [content.length], the caller below passes the
    length of the string it gives as content. *)
Definition createDefinition (start : nat) (id : string) (content : Content)
    (length : nat) : list Token :=
  [safe start ("<span class=" +:+ dq +:+ "definition" +:+ dq +:+ " id=" +:+ dq
               +:+ escapeHtml id +:+ dq +:+ ">")]
  ++ embed start content
  ++ [safe (start + length) "</span>"].

(** [createRef(start, href, content, length)] *)
Definition createRef (start : nat) (href : string) (content : Content)
    (length : nat) : list Token :=
  [safe start ("<a class=" +:+ dq +:+ "ref" +:+ dq +:+ " href=" +:+ dq
               +:+ escapeHtml href +:+ dq +:+ ">")]
  ++ embed start content
  ++ [safe (start + length) "</a>"].

(** [decl => getSymbolAtLocation(decl.propertyName) === symbol ||
             getSymbolAtLocation(decl.name) === symbol] *)
Definition declResolvesTo (symbol : option Symbol) (decl : NodeId) : bool :=
  sameSymbol (symbolAt (propertyName (ast decl))) symbol
  || sameSymbol (symbolAt (name (ast decl))) symbol.

(** [[...exports.values()].find(exported => exported.declarations.some(...))] *)
Fixpoint findExport (symbol : option Symbol) (exps : list Symbol)
    : M (option Symbol) :=
  match exps with
  | [] => ret None
  | exported :: rest =>
    decls <~ deref (declarations exported) ;;
    if existsb (declResolvesTo symbol) decls then ret (Some exported)
    else findExport symbol rest
  end.

(** The [exportEntry] of [idFor]: the first entry of the module's export
    table with a declaration that resolves to the node's symbol; [undefined]
    when the file has no module symbol. *)
Definition exportEntryOf (n : NodeId) : M (option Symbol) :=
  let moduleSymbol := getSymbolAtLocation (getSourceFile (ast n)) in
  let symbol := getSymbolAtLocation n in
  match moduleSymbol with
  | None => ret None
  | Some ms =>
    exps <~ deref (exports ms) ;;
    findExport symbol exps
  end.

(** The body of [idFor] that computes a fresh id (the immediately invoked
    arrow function); [idFor'] is the recursive call. *)
Definition idForBody (idFor' : option NodeId -> M string) (fuel : nat)
    (n : NodeId) : M string :=
  let fallbackId :=
    "symbol-" +:+ escapeHtml (getText (ast n)) +:+ "-"
    +:+ pretty (getStart (ast n)) in
  exportEntry <~ exportEntryOf n ;;
  match exportEntry with
  | Some e => ret (symName e)
  | None =>
    statement <~ liftFuel (getStatement fuel n) ;;
    sp <~ deref (parent (ast statement)) ;;
    if negb (isKind SourceFile sp) then ret fallbackId
    else
      param <~ liftFuel (check fuel (Some n)) ;;
      match param with
      | None => ret ("symbol-" +:+ getText (ast n))
      | Some prm =>
        fnOwner <~ deref (parent (ast prm)) ;;
        match name (ast fnOwner) with
        | None => ret fallbackId
        | Some fn =>
          fnId <~ idFor' (Some fn) ;;
          ret (fnId +:+ "-" +:+ getText (ast n))
        end
      end
  end.

(** [idFor(node, typeChecker)], memoized in [idCache]. *)
Fixpoint idFor (fuel : nat) (node : option NodeId) : M string :=
  match fuel with
  | O => diverge
  | S fuel' =>
    n <~ deref node ;;
    cached <~ cacheGet n ;;
    match cached with
    | Some id => ret id
    | None =>
      id <~ idForBody (idFor fuel') fuel' n ;;
      cacheSet n id ;;;
      ret id
    end
  end.

(** [d.getSourceFile().fileName.startsWith("/@ts:lib")] *)
Definition isLibDeclaration (d : NodeId) : bool :=
  String.prefix "/@ts:lib" (fileName (ast (getSourceFile (ast d)))).

(** [isDefinition(symbol, node)] *)
Definition isDefinition (symbol : Symbol) (node : NodeId) : M bool :=
  match valueDeclaration symbol with
  | Some vd => ret (sameNode (name (ast vd)) node)
  | None =>
    decls <~ deref (declarations symbol) ;;
    localDeclarations <~
      (if (1 <? length decls)%nat then
         let locals := List.filter (fun d => negb (isLibDeclaration d)) decls in
         (if (1 <? length locals)%nat
          then consoleLog "symbol has > 1 local declaration" symbol
          else ret tt) ;;;
         ret (Some locals)
       else ret None) ;;
    declaration <~ deref (head (default decls localDeclarations)) ;;
    ret (sameNode (name (ast declaration)) node)
  end.

(** Truthiness of an optional object ([!!x], [if (x)]). *)
Definition truthy {A} (o : option A) : bool :=
  match o with
  | Some _ => true
  | None => false
  end.

(** The closure [transformImportSource(specifier)] of [linkToDefinitions]. *)
Definition transformImportSource (sourceFile specifier : NodeId) : M unit :=
  let start := getStart (ast specifier) in
  let end_ := getEnd (ast specifier) in
  let text_ := jsSubstring (text (ast sourceFile)) start end_ in
  push (mkReplacement start end_
          [safe start
             ("<a href=" +:+ dq +:+ escapeHtml (text (ast specifier)) +:+ dq
              +:+ " class=" +:+ dq +:+ "hljs-string" +:+ dq +:+ ">"
              +:+ escapeHtml text_ +:+ "</a>")]).

(** The [if (isImported) { ... }] block of the [Identifier] case; the result
    says whether the visitor returned from inside it. *)
Definition visitImported (node statement : NodeId) : M bool :=
  let nodeText := getText (ast node) in
  let start := getStart (ast node) in
  let end_ := getEnd (ast node) in
  p <~ deref (parent (ast node)) ;;
  let isLocalDeclaration := sameNode (name (ast p)) node in
  let isRemoteDeclaration :=
    negb (isKind NamespaceImport p)
    && (negb (truthy (propertyName (ast p)))
        || sameNode (propertyName (ast p)) node) in
  let prefix :=
    if isKind ImportDeclaration statement then "symbol-" else EmptyString in
  if isLocalDeclaration && isRemoteDeclaration then
    link <~ getRemoteLink node statement ;;
    push (mkReplacement start end_
            (createRef start link
               (CTokens (createDefinition start (prefix +:+ nodeText)
                           (CString nodeText) (String.length nodeText)))
               (String.length nodeText))) ;;;
    ret true
  else if isLocalDeclaration then
    push (mkReplacement start end_
            (createDefinition start (prefix +:+ nodeText)
               (CString nodeText) (String.length nodeText))) ;;;
    ret true
  else ret false.

(** The [if (!symbol) { ... }] block: [{im,ex}port { *node* as foo } from]. *)
Definition visitUnresolved (node statement : NodeId) : M bool :=
  let nodeText := getText (ast node) in
  let start := getStart (ast node) in
  let end_ := getEnd (ast node) in
  p <~ deref (parent (ast node)) ;;
  if sameNode (propertyName (ast p)) node
     && truthy (moduleSpecifier (ast statement)) then
    link <~ getRemoteLink node statement ;;
    push (mkReplacement start end_
            (createRef start link (CString nodeText) (String.length nodeText))) ;;;
    ret true
  else ret false.

(** The rest of the [Identifier] case, for a resolved symbol. *)
Definition visitResolved (fuel : nat) (node : NodeId) (symbol : Symbol)
    : M unit :=
  let nodeText := getText (ast node) in
  let start := getStart (ast node) in
  let end_ := getEnd (ast node) in
  match declarations symbol with
  | None => ret tt
  | Some [] => ret tt
  | Some ((d0 :: _) as decls) =>
    let valueDecl := name (ast (default d0 (valueDeclaration symbol))) in
    if forallb isLibDeclaration
         (option_list (valueDeclaration symbol) ++ decls)
    then ret tt
    else
      isDef <~ isDefinition symbol node ;;
      tokens <~
        (if isDef then
           id <~ idFor fuel (Some node) ;;
           ret (createDefinition start id (CString nodeText)
                  (String.length nodeText))
         else
           id <~ idFor fuel valueDecl ;;
           ret (createRef start ("#" +:+ id) (CString nodeText)
                  (String.length nodeText))) ;;
      push (mkReplacement start end_ tokens)
  end.

(** [case ts.SyntaxKind.Identifier: { ... }] *)
Definition visitIdentifier (fuel : nat) (node : NodeId) : M unit :=
  let symbol := getSymbolAtLocation node in
  statement <~ liftFuel (getStatement fuel node) ;;
  let isImported := truthy (moduleSpecifier (ast statement)) in
  returned <~ (if isImported then visitImported node statement
               else ret false) ;;
  if (returned : bool) then ret tt
  else
    match symbol with
    | None =>
      returned' <~ visitUnresolved node statement ;;
      ret tt
    | Some sym => visitResolved fuel node sym
    end.

(** The visitor [node => { switch (node.kind) ... }]. *)
Definition visit (fuel : nat) (sourceFile node : NodeId) : M unit :=
  match kind (ast node) with
  | Identifier => visitIdentifier fuel node
  | ImportDeclaration | ExportDeclaration =>
    match moduleSpecifier (ast node) with
    | Some specifier => transformImportSource sourceFile specifier
    | None => ret tt
    end
  | ImportEqualsDeclaration =>
    ref <~ deref (moduleReference (ast node)) ;;
    match expression (ast ref) with
    | Some specifier =>
      if isKind StringLiteral specifier
      then transformImportSource sourceFile specifier
      else ret tt
    | None => ret tt
    end
  | _ => ret tt
  end.

(** Modelled from the spec: [walkAST] of [./utils], the supplied traversal
    that visits every node exactly once, pre-order, following the child
    lists of the parser's tree. *)
Fixpoint preorder (fuel : nat) (n : NodeId) : option (list NodeId) :=
  match fuel with
  | O => None
  | S fuel' =>
    rest ← mapM (preorder fuel') (children (ast n));
    Some (n :: concat rest)
  end.

Definition walkAST (fuel : nat) (root : NodeId) (visitor : NodeId -> M unit)
    : M unit :=
  order <~ liftFuel (preorder fuel root) ;;
  forEach order visitor.

(** [linkToDefinitions({ sourceFile, typeChecker })] *)
Definition linkToDefinitions (fuel : nat) (sourceFile : NodeId)
    : M (list Replacement) :=
  (fun st => (Ret tt, mkState (idCache st) (console st) [])) ;;;
  walkAST fuel sourceFile (visit fuel sourceFile) ;;;
  cacheClear ;;;
  (fun st => (Ret (replacements st), st)).

End Collector.

(** ** The compiler host: library files *)

(** [s.includes(needle)] *)
Fixpoint includes (needle s : string) : bool :=
  String.prefix needle s
  || match s with
     | EmptyString => false
     | String _ s' => includes needle s'
     end.

(** A character of the class [[\\\/]]. *)
Definition isSlash (c : ascii) : bool :=
  Ascii.eqb c "/" || Ascii.eqb c "\".

(** [name.replace(/[\\\/]@ts:lib[\/\\]/, "")]: the first slash, [@ts:lib],
    slash is cut out of the name. *)
Fixpoint removeLibMarker (name : string) : string :=
  match name with
  | EmptyString => EmptyString
  | String c rest =>
    if isSlash c && String.prefix "@ts:lib" rest
       && match String.get 7 rest with
          | Some c' => isSlash c'
          | None => false
          end
    then String.substring 8 (String.length rest - 8) rest
    else String c (removeLibMarker rest)
  end.

Section Host.

(** [fs.readFileSync(path.join(tsLib, rel), "utf8")] as a function of the
    relative name [rel]; [None] when the read throws. *)
Variable readFileSync : string -> option string.

(** [ts.createSourceFile(name, content, ts.ScriptTarget.ESNext)]: the
    source-file object the parser makes. *)
Variable createSourceFile : string -> string -> NodeId.

(** [loadLibFile(name)] over the module-level [cache] object; the result is
    [null] ([None]) or a source file. *)
Definition loadLibFile (name : string) (cache : gmap string NodeId)
    : outcome (option NodeId) * gmap string NodeId :=
  if negb (includes "@ts:lib" name) then (Ret None, cache)
  else
    match cache !! name with
    | Some file => (Ret (Some file), cache)
    | None =>
      match readFileSync (removeLibMarker name) with
      | None => (Throw "Error", cache)
      | Some content =>
        let file := createSourceFile name content in
        (Ret (Some file), <[name := file]> cache)
      end
    end.

(** The [fileExists] callback of the host that [parse] builds. *)
Definition fileExists (pathname name : string) : bool :=
  String.eqb name pathname || String.prefix "/@ts:lib" name.

(** The [getSourceFile] callback of the host that [parse] builds. *)
Definition hostGetSourceFile (pathname : string) (sourceFile : NodeId)
    (name : string) (cache : gmap string NodeId)
    : outcome (option NodeId) * gmap string NodeId :=
  if String.eqb name pathname then (Ret (Some sourceFile), cache)
  else loadLibFile name cache.

End Host.

(** ** Concrete programs *)

Module Examples.

(** An [escapeHtml] to run the examples with: the five usual entities. *)
Fixpoint escapeHtmlStd (s : string) : string :=
  match s with
  | EmptyString => EmptyString
  | String c s' =>
    (if Ascii.eqb c "&" then "&amp;"
     else if Ascii.eqb c "<" then "&lt;"
     else if Ascii.eqb c ">" then "&gt;"
     else if Ascii.eqb c "034" then "&quot;"
     else if Ascii.eqb c "'" then "&#39;"
     else String c EmptyString) +:+ escapeHtmlStd s'
  end.

Definition leaf (k : SyntaxKind) (s e : nat) (txt : string) (p : NodeId) : Node :=
  mkNode k s e txt txt 1%positive EmptyString (Some p) [] None None None None None.

Definition inner (k : SyntaxKind) (s e : nat) (p : NodeId)
    (kids : list NodeId) : Node :=
  mkNode k s e EmptyString EmptyString 1%positive EmptyString (Some p) kids
    None None None None None.

Definition named (k : SyntaxKind) (s e : nat) (p : NodeId)
    (kids : list NodeId) (nm : NodeId) : Node :=
  mkNode k s e EmptyString EmptyString 1%positive EmptyString (Some p) kids
    (Some nm) None None None None.

Definition literal (s e : nat) (txt : string) (p : NodeId) : Node :=
  mkNode StringLiteral s e (dq +:+ txt +:+ dq) txt 1%positive EmptyString
    (Some p) [] None None None None None.

Definition root (e : nat) (code file : string) (kids : list NodeId) : Node :=
  mkNode SourceFile 0 e code code 1%positive file None kids
    None None None None None.

Definition absent : Node :=
  mkNode OtherKind 0 0 EmptyString EmptyString 1%positive EmptyString None []
    None None None None None.

Definition emptyState : State := mkState ∅ [] [].

(** [import { a as b } from "m"; export { b as c }; b;] *)
Definition reexportCode : string :=
  "import { a as b } from " +:+ dq +:+ "m" +:+ dq
  +:+ "; export { b as c }; b;".

Definition reexportAst (n : NodeId) : Node :=
  match n with
  | 1 => root 49 reexportCode "/mod.ts" [2; 10; 16]
  | 2 => mkNode ImportDeclaration 0 27 EmptyString EmptyString 1 EmptyString
           (Some 1) [3; 9] None None (Some 9) None None
  | 3 => inner ImportClause 7 17 2 [4]
  | 4 => inner NamedImports 7 17 3 [5]
  | 5 => mkNode ImportSpecifier 9 15 EmptyString EmptyString 1 EmptyString
           (Some 4) [6; 7] (Some 7) (Some 6) None None None
  | 6 => leaf Identifier 9 10 "a" 5
  | 7 => leaf Identifier 14 15 "b" 5
  | 9 => literal 23 26 "m" 2
  | 10 => inner ExportDeclaration 28 46 1 [11]
  | 11 => inner NamedExports 35 45 10 [12]
  | 12 => mkNode ExportSpecifier 37 43 EmptyString EmptyString 1 EmptyString
            (Some 11) [13; 14] (Some 14) (Some 13) None None None
  | 13 => leaf Identifier 37 38 "b" 12
  | 14 => leaf Identifier 42 43 "c" 12
  | 16 => inner OtherKind 47 49 1 [17]
  | 17 => leaf Identifier 47 48 "b" 16
  | _ => absent
  end%positive.

Definition symB : Symbol := mkSymbol 1 "b" (Some [5%positive]) None None.
Definition symC : Symbol := mkSymbol 2 "c" (Some [12%positive]) None None.
Definition symMod : Symbol :=
  mkSymbol 3 "/mod" (Some [1%positive]) (Some 1%positive) (Some [symC]).

Definition reexportOracle (n : NodeId) : option Symbol :=
  match n with
  | 1 => Some symMod
  | 7 | 13 | 17 => Some symB
  | 14 => Some symC
  | _ => None
  end%positive.

(** [declare module "foo" { import { x } from "bar"; export const y: typeof x; }] *)
Definition nestedCode : string :=
  "declare module " +:+ dq +:+ "foo" +:+ dq +:+ " { import { x } from "
  +:+ dq +:+ "bar" +:+ dq +:+ "; export const y: typeof x; }".

Definition nestedAst (n : NodeId) : Node :=
  match n with
  | 1 => root 75 nestedCode "/ambient.ts" [2]
  | 2 => named OtherKind 0 75 1 [3; 4] 3
  | 3 => literal 15 20 "foo" 2
  | 4 => inner ModuleBlock 21 75 2 [5; 11]
  | 5 => mkNode ImportDeclaration 23 47 EmptyString EmptyString 1 EmptyString
           (Some 4) [6; 10] None None (Some 10) None None
  | 6 => inner ImportClause 30 35 5 [7]
  | 7 => inner NamedImports 30 35 6 [8]
  | 8 => named ImportSpecifier 32 33 7 [9] 9
  | 9 => leaf Identifier 32 33 "x" 8
  | 10 => literal 41 46 "bar" 5
  | 11 => inner OtherKind 48 73 4 [12]
  | 12 => inner OtherKind 55 72 11 [13]
  | 13 => named OtherKind 61 72 12 [14; 15] 14
  | 14 => leaf Identifier 61 62 "y" 13
  | 15 => inner OtherKind 64 72 13 [16]
  | 16 => leaf Identifier 71 72 "x" 15
  | _ => absent
  end%positive.

Definition symX : Symbol := mkSymbol 1 "x" (Some [8%positive]) None None.
Definition symY : Symbol :=
  mkSymbol 2 "y" (Some [13%positive]) (Some 13%positive) None.

Definition nestedOracle (n : NodeId) : option Symbol :=
  match n with
  | 9 | 16 => Some symX
  | 14 => Some symY
  | _ => None
  end%positive.

(** [interface A {} const A = 1;]: two declarations merged into one symbol,
    whose value declaration is the second. *)
Definition mergedCode : string := "interface A {} const A = 1;".

Definition mergedAst (n : NodeId) : Node :=
  match n with
  | 1 => root 27 mergedCode "/merged.ts" [2; 4]
  | 2 => named OtherKind 0 14 1 [3] 3
  | 3 => leaf Identifier 10 11 "A" 2
  | 4 => inner OtherKind 15 27 1 [5]
  | 5 => inner OtherKind 15 26 4 [6]
  | 6 => named OtherKind 21 26 5 [7; 8] 7
  | 7 => leaf Identifier 21 22 "A" 6
  | 8 => leaf OtherKind 25 26 "1" 6
  | _ => absent
  end%positive.

Definition symA : Symbol :=
  mkSymbol 1 "A" (Some [2%positive; 6%positive]) (Some 6%positive) None.

Definition mergedOracle (n : NodeId) : option Symbol :=
  match n with
  | 3 | 7 => Some symA
  | _ => None
  end%positive.

(** [Math.PI; interface ArrayLike<T> { extra: T }], with the declarations
    the standard library gives [Math], [PI] and [ArrayLike] (nodes 100 and
    up, in [/@ts:lib/lib.es5.d.ts]). *)
Definition builtinCode : string :=
  "Math.PI; interface ArrayLike<T> { extra: T }".

Definition libNode (k : SyntaxKind) (txt : string) (p : NodeId)
    (nm : option NodeId) : Node :=
  mkNode k 0 0 txt txt 100%positive EmptyString (Some p) [] nm
    None None None None.

Definition builtinAst (n : NodeId) : Node :=
  match n with
  | 1 => root 44 builtinCode "/use.ts" [2; 6]
  | 2 => inner OtherKind 0 8 1 [3]
  | 3 => mkNode OtherKind 0 7 EmptyString EmptyString 1 EmptyString
           (Some 2) [4; 5] (Some 5) None None None (Some 4)
  | 4 => leaf Identifier 0 4 "Math" 3
  | 5 => leaf Identifier 5 7 "PI" 3
  | 6 => named OtherKind 9 44 1 [7; 8; 10] 7
  | 7 => leaf Identifier 19 28 "ArrayLike" 6
  | 8 => named OtherKind 29 30 6 [9] 9
  | 9 => leaf Identifier 29 30 "T" 8
  | 10 => named OtherKind 34 42 6 [11; 12] 11
  | 11 => leaf Identifier 34 39 "extra" 10
  | 12 => inner OtherKind 41 42 10 [13]
  | 13 => leaf Identifier 41 42 "T" 12
  | 100 => mkNode SourceFile 0 0 EmptyString EmptyString 100
             "/@ts:lib/lib.es5.d.ts" None [] None None None None None
  | 101 => libNode OtherKind EmptyString 100 (Some 102)
  | 102 => libNode Identifier "Math" 101 None
  | 103 => libNode OtherKind EmptyString 100 (Some 104)
  | 104 => libNode Identifier "Math" 103 None
  | 105 => libNode OtherKind EmptyString 103 (Some 106)
  | 106 => libNode Identifier "PI" 105 None
  | 110 => libNode OtherKind EmptyString 100 (Some 111)
  | 111 => libNode Identifier "ArrayLike" 110 None
  | _ => absent
  end%positive.

Definition symArrayLike : Symbol :=
  mkSymbol 3 "ArrayLike" (Some [110%positive; 6%positive]) None None.


(** The four replacements of the ambient-module program, in the order the
    traversal pushes them. *)
Definition nestedReplacements : list Replacement :=
  [ mkReplacement 41 46
      [safe 41 ("<a href=" +:+ dq +:+ "bar" +:+ dq +:+ " class=" +:+ dq
                +:+ "hljs-string" +:+ dq +:+ ">&quot;bar&quot;</a>")];
    mkReplacement 32 33
      (createRef escapeHtmlStd 32 "bar#x"
         (CTokens (createDefinition escapeHtmlStd 32 "symbol-x" (CString "x") 1))
         1);
    mkReplacement 61 62
      (createDefinition escapeHtmlStd 61 "symbol-y-61" (CString "y") 1);
    mkReplacement 71 72
      (createRef escapeHtmlStd 71 "#symbol-x-32" (CString "x") 1) ].


(** [function f(a) {} function g(a) {}]: two parameters of the same name. *)
Definition paramsCode : string := "function f(a) {} function g(a) {}".

Definition paramsAst (n : NodeId) : Node :=
  match n with
  | 1 => root 33 paramsCode "/params.ts" [2; 7]
  | 2 => named OtherKind 0 16 1 [3; 4; 6] 3
  | 3 => leaf Identifier 9 10 "f" 2
  | 4 => named ParameterDeclaration 11 12 2 [5] 5
  | 5 => leaf Identifier 11 12 "a" 4
  | 6 => inner Block 14 16 2 []
  | 7 => named OtherKind 17 33 1 [8; 9; 11] 8
  | 8 => leaf Identifier 26 27 "g" 7
  | 9 => named ParameterDeclaration 28 29 7 [10] 10
  | 10 => leaf Identifier 28 29 "a" 9
  | 11 => inner Block 31 33 7 []
  | _ => absent
  end%positive.

Definition symFnF : Symbol :=
  mkSymbol 1 "f" (Some [2%positive]) (Some 2%positive) None.
Definition symFnG : Symbol :=
  mkSymbol 2 "g" (Some [7%positive]) (Some 7%positive) None.
Definition symParamF : Symbol :=
  mkSymbol 3 "a" (Some [4%positive]) (Some 4%positive) None.
Definition symParamG : Symbol :=
  mkSymbol 4 "a" (Some [9%positive]) (Some 9%positive) None.

Definition paramsOracle (n : NodeId) : option Symbol :=
  match n with
  | 3 => Some symFnF
  | 8 => Some symFnG
  | 5 => Some symParamF
  | 10 => Some symParamG
  | _ => None
  end%positive.

(** A file system with one library file, and a parser that numbers the
    source files it makes by the length of their name. *)
Definition oneLibFile (rel : string) : option string :=
  if String.eqb rel "lib.esnext.d.ts" then Some "declare var x: number;"
  else None.

Definition sourceFileByName (name content : string) : NodeId :=
  Pos.of_succ_nat (String.length name).

(** [import { x } from "./m"; x;], a module that exports nothing. *)
Definition importCode : string :=
  "import { x } from " +:+ dq +:+ "./m" +:+ dq +:+ "; x;".

Definition importAst (n : NodeId) : Node :=
  match n with
  | 1 => root 27 importCode "/main.ts" [2; 8]
  | 2 => mkNode ImportDeclaration 0 24 EmptyString EmptyString 1 EmptyString
           (Some 1) [3; 7] None None (Some 7) None None
  | 3 => inner ImportClause 7 12 2 [4]
  | 4 => inner NamedImports 7 12 3 [5]
  | 5 => named ImportSpecifier 9 10 4 [6] 6
  | 6 => leaf Identifier 9 10 "x" 5
  | 7 => literal 18 23 "./m" 2
  | 8 => inner OtherKind 25 27 1 [9]
  | 9 => leaf Identifier 25 26 "x" 8
  | _ => absent
  end%positive.

Definition symImported : Symbol :=
  mkSymbol 1 "x" (Some [5%positive]) None None.
Definition symMain : Symbol :=
  mkSymbol 2 "/main" (Some [1%positive]) (Some 1%positive) (Some []).

Definition importOracle (n : NodeId) : option Symbol :=
  match n with
  | 1 => Some symMain
  | 6 | 9 => Some symImported
  | _ => None
  end%positive.

(** [let i: PromiseLike<number>;], with the two declarations the standard
    library gives the interface [PromiseLike] (nodes 101 and 201, in two
    library files). *)
Definition libOnlyCode : string := "let i: PromiseLike<number>;".

Definition libOnlyAst (n : NodeId) : Node :=
  match n with
  | 1 => root 27 libOnlyCode "/t.ts" [2]
  | 2 => inner OtherKind 0 27 1 [3]
  | 3 => inner OtherKind 0 26 2 [4]
  | 4 => named OtherKind 4 26 3 [5; 6] 5
  | 5 => leaf Identifier 4 5 "i" 4
  | 6 => inner OtherKind 7 26 4 [7]
  | 7 => leaf Identifier 7 18 "PromiseLike" 6
  | 100 => mkNode SourceFile 0 0 EmptyString EmptyString 100
             "/@ts:lib/lib.es5.d.ts" None [] None None None None None
  | 101 => libNode OtherKind EmptyString 100 (Some 102)
  | 102 => libNode Identifier "PromiseLike" 101 None
  | 200 => mkNode SourceFile 0 0 EmptyString EmptyString 200
             "/@ts:lib/lib.es2015.promise.d.ts" None [] None None None None None
  | 201 => mkNode OtherKind 0 0 EmptyString EmptyString 200 EmptyString
             (Some 200) [] (Some 202) None None None None
  | 202 => mkNode Identifier 0 0 "PromiseLike" "PromiseLike" 200 EmptyString
             (Some 201) [] None None None None None
  | _ => absent
  end%positive.

Definition symPromiseLike : Symbol :=
  mkSymbol 1 "PromiseLike" (Some [101%positive; 201%positive]) None None.

(** A checker that resolves nothing. *)
Definition noOracle (n : NodeId) : option Symbol := None.

(** The module of [importAst] with an export entry that has no
    declarations. *)
Definition symBare : Symbol := mkSymbol 7 "bare" None None None.
Definition symMainBare : Symbol :=
  mkSymbol 8 "/main" (Some [1%positive]) (Some 1%positive) (Some [symBare]).

Definition bareOracle (n : NodeId) : option Symbol :=
  match n with
  | 1 => Some symMainBare
  | 6 | 9 => Some symImported
  | _ => None
  end%positive.

(** States and runs the properties below are tried on. *)
Definition stateWithF : State :=
  mkState (<[3%positive := "symbol-f"]> ∅) [] [].

Definition stateWithA : State :=
  mkState (<[7%positive := "symbol-A"]> ∅) [] [].

Definition paramsRun : outcome unit * State :=
  forEach [5; 10]%positive
    (visit escapeHtmlStd paramsAst paramsOracle 20 1%positive) stateWithF.

Definition nestedVisit : outcome unit * State :=
  visit escapeHtmlStd nestedAst nestedOracle 20 1%positive 9%positive
    emptyState.

Definition esnextName : string := "/@ts:lib/lib.esnext.d.ts".

Definition loadedCache : gmap string NodeId := <[esnextName := 25%positive]> ∅.

(** [import x from foo.bar;]: the parser accepts any expression as the
    module specifier of an import declaration; here it is the property
    access [foo.bar] (node 5), whose name [bar] is an identifier of its own.
    A property access has no [text]: the field reads as [undefined]. *)
Definition malformedCode : string := "import x from foo.bar;".

Definition malformedAst (n : NodeId) : Node :=
  match n with
  | 1 => root 22 malformedCode "/bad.ts" [2]
  | 2 => mkNode ImportDeclaration 0 22 EmptyString EmptyString 1 EmptyString
           (Some 1) [3; 5] None None (Some 5) None None
  | 3 => named ImportClause 7 8 2 [4] 4
  | 4 => leaf Identifier 7 8 "x" 3
  | 5 => mkNode OtherKind 14 21 "foo.bar" "undefined" 1 EmptyString
           (Some 2) [6; 7] (Some 7) None None None (Some 6)
  | 6 => leaf Identifier 14 17 "foo" 5
  | 7 => leaf Identifier 18 21 "bar" 5
  | _ => absent
  end%positive.



(** [namespace N { export default 1 } N.default;], a script (no import or
    export at the top level, so the file has no module symbol).  The binder
    gives the namespace a property [default] whose one declaration, and value
    declaration, is the export assignment (node 5), a declaration without a
    [name]. *)
Definition namespaceCode : string :=
  "namespace N { export default 1 } N.default;".

Definition namespaceAst (n : NodeId) : Node :=
  match n with
  | 1 => root 43 namespaceCode "/ns.ts" [2; 7]
  | 2 => named OtherKind 0 32 1 [3; 4] 3
  | 3 => leaf Identifier 10 11 "N" 2
  | 4 => inner ModuleBlock 12 32 2 [5]
  | 5 => mkNode OtherKind 14 30 EmptyString EmptyString 1 EmptyString
           (Some 4) [6] None None None None (Some 6)
  | 6 => leaf OtherKind 29 30 "1" 5
  | 7 => inner OtherKind 33 43 1 [8]
  | 8 => mkNode OtherKind 33 42 EmptyString EmptyString 1 EmptyString
           (Some 7) [9; 10] (Some 10) None None None (Some 9)
  | 9 => leaf Identifier 33 34 "N" 8
  | 10 => leaf Identifier 35 42 "default" 8
  | _ => absent
  end%positive.

Definition symN : Symbol :=
  mkSymbol 1 "N" (Some [2%positive]) (Some 2%positive) None.

Definition symDefault : Symbol :=
  mkSymbol 2 "default" (Some [5%positive]) (Some 5%positive) None.

Definition namespaceOracle (n : NodeId) : option Symbol :=
  match n with
  | 3 | 9 => Some symN
  | 10 => Some symDefault
  | _ => None
  end%positive.

(** The state the pass over the namespace program is in after the visits of
    the file, the namespace declaration and its name. *)
Definition namespaceNamed : State :=
  mkState (<[3%positive := "symbol-N"]> ∅) []
    [mkReplacement 10 11
       (createDefinition escapeHtmlStd 10 "symbol-N" (CString "N") 1)].

(** The state the failed pass over the namespace program ends in. *)
Definition namespaceFailed : State :=
  mkState (<[3%positive := "symbol-N"]> ∅) []
    [mkReplacement 10 11
       (createDefinition escapeHtmlStd 10 "symbol-N" (CString "N") 1);
     mkReplacement 33 34
       (createRef escapeHtmlStd 33 "#symbol-N" (CString "N") 1)].

(** [import x = require("m");]: an import-equals declaration (node 2) has a
    module reference and no module specifier.  The file is a module without
    exports. *)
Definition importEqualsCode : string :=
  "import x = require(" +:+ dq +:+ "m" +:+ dq +:+ ");".

Definition importEqualsAst (n : NodeId) : Node :=
  match n with
  | 1 => root 24 importEqualsCode "/req.ts" [2]
  | 2 => mkNode ImportEqualsDeclaration 0 24 EmptyString EmptyString 1
           EmptyString (Some 1) [3; 4] (Some 3) None None (Some 4) None
  | 3 => leaf Identifier 7 8 "x" 2
  | 4 => mkNode ExternalModuleReference 11 23 EmptyString EmptyString 1
           EmptyString (Some 2) [5] None None None None (Some 5)
  | 5 => literal 19 22 "m" 4
  | _ => absent
  end%positive.

Definition symRequired : Symbol :=
  mkSymbol 1 "x" (Some [2%positive]) None None.

Definition symReqModule : Symbol :=
  mkSymbol 2 "req" (Some [1%positive]) (Some 1%positive) (Some []).

Definition importEqualsOracle (n : NodeId) : option Symbol :=
  match n with
  | 1 => Some symReqModule
  | 3 => Some symRequired
  | _ => None
  end%positive.

End Examples.

(** ** Properties of the collector *)

Section Properties.

Variable escapeHtml : string -> string.
Variable ast : NodeId -> Node.
Variable getSymbolAtLocation : NodeId -> option Symbol.

(** *** The vocabulary of the statements *)

(** The exported name, in the words of the specification: the rename
    source's text in a [{a as b}] form, else the local name's text in a
    named import or export list, else ["default"]. *)
Definition exportedName (node p gp : NodeId) : string :=
  match propertyName (ast p) with
  | Some pn => text (ast pn)
  | None =>
    if isKind ast NamedImports gp || isKind ast NamedExports gp
    then text (ast node)
    else "default"
  end.

(** The state after [replacements.push(r)]. *)
Definition pushed (st : State) (r : Replacement) : State :=
  mkState (idCache st) (console st) (replacements st ++ [r]).

(** Eligible for a remote link: not a namespace import, and the rename
    source is absent or is the node itself. *)
Definition remoteEligible (node p : NodeId) : bool :=
  negb (isKind ast NamespaceImport p)
  && (negb (truthy (propertyName (ast p)))
      || sameNode (propertyName (ast p)) node).

(** The id given to the anchor of a name bound by [statement]. *)
Definition boundId (statement node : NodeId) : string :=
  (if isKind ast ImportDeclaration statement then "symbol-" else EmptyString)
  +:+ getText (ast node).

Definition boundAnchor (statement node : NodeId) : list Token :=
  createDefinition escapeHtml (getStart (ast node)) (boundId statement node)
    (CString (getText (ast node))) (String.length (getText (ast node))).

(** The literal a declaration's module specifier is read from: the
    [moduleSpecifier] of an import or export declaration, and the string
    literal in the [moduleReference.expression] of an import-equals
    declaration. *)
Definition literalSpecifier (d : NodeId) : option NodeId :=
  match kind (ast d) with
  | ImportDeclaration | ExportDeclaration => moduleSpecifier (ast d)
  | ImportEqualsDeclaration =>
    match moduleReference (ast d) with
    | Some ref =>
      match expression (ast ref) with
      | Some s => if isKind ast StringLiteral s then Some s else None
      | None => None
      end
    | None => None
    end
  | _ => None
  end.

Definition specifierMarkup (sf s : NodeId) : string :=
  "<a href=" +:+ dq +:+ escapeHtml (text (ast s)) +:+ dq
  +:+ " class=" +:+ dq +:+ "hljs-string" +:+ dq +:+ ">"
  +:+ escapeHtml (jsSubstring (text (ast sf)) (getStart (ast s)) (getEnd (ast s)))
  +:+ "</a>".

Definition hasDeclarations (s : Symbol) : bool := truthy (declarations s).

(** An export entry one of whose declarations resolves, by rename source or
    by name, to [symbol]. *)
Definition exportMatches (symbol : option Symbol) (exported : Symbol) : bool :=
  existsb (declResolvesTo ast getSymbolAtLocation symbol)
    (default [] (declarations exported)).

(** The public name the export rule gives a node, when the rule applies. *)
Definition exportNameOf (n : NodeId) : option string :=
  ms ← getSymbolAtLocation (getSourceFile (ast n));
  exps ← exports ms;
  if forallb hasDeclarations exps
  then symName <$> List.find (exportMatches (getSymbolAtLocation n)) exps
  else None.

(** What a pass keeps true of the cache: an entry for a node the export
    rule applies to holds the export's public name. *)
Definition cacheRespectsExports (c : gmap NodeId string) : Prop :=
  forall n id nm, c !! n = Some id -> exportNameOf n = Some nm -> id = nm.

(** Modelled from the spec: the match of the export rule, in the words of
    the specification and over the checker alone.  A declaration resolves to
    [sym] by its rename-source name ([propertyName]) or by its local name
    ([name]) when the checker gives that identifier a symbol, and the symbol
    is [sym]. *)
Definition resolvesByNameOrSource (sym : Symbol) (decl : NodeId) : Prop :=
  (exists pn s,
     propertyName (ast decl) = Some pn
     /\ getSymbolAtLocation pn = Some s /\ symId s = symId sym)
  \/ (exists nm s,
        name (ast decl) = Some nm
        /\ getSymbolAtLocation nm = Some s /\ symId s = symId sym).

(** Modelled from the spec: an export entry one of whose declarations
    resolves to [sym]. *)
Definition exportsSymbol (sym exported : Symbol) : Prop :=
  exists decls decl,
    declarations exported = Some decls
    /\ decl ∈ decls
    /\ resolvesByNameOrSource sym decl.

(** Modelled from the spec: [e] is the first entry of the export list that
    exports [sym]. *)
Definition firstExportOf (sym : Symbol) (exps : list Symbol) (e : Symbol)
    : Prop :=
  exists pre post,
    exps = (pre ++ e :: post)%list
    /\ exportsSymbol sym e
    /\ forall y, y ∈ pre -> ~ exportsSymbol sym y.

(** A cache that holds, for every node it has an entry for and whose symbol
    its module exports, the public name of the first export of that
    symbol. *)
Definition cacheHoldsExportNames (c : gmap NodeId string) : Prop :=
  forall n id sym ms exps e,
    c !! n = Some id ->
    getSymbolAtLocation n = Some sym ->
    getSymbolAtLocation (getSourceFile (ast n)) = Some ms ->
    exports ms = Some exps ->
    forallb hasDeclarations exps = true ->
    firstExportOf sym exps e ->
    id = symName e.

(** Modelled from the spec: what C10 states of the bound name of an export
    or import-equals declaration.  The visit leaves the cache and the
    console alone and pushes one replacement, an anchor (possibly inside a
    link) whose id is the bare text of the identifier. *)
Definition anchorsBareText (fuel : nat) (sf node : NodeId) (st : State)
    : Prop :=
  exists r : Replacement,
    visit escapeHtml ast getSymbolAtLocation fuel sf node st
    = (Ret tt, mkState (idCache st) (console st) (replacements st ++ [r]))
    /\ (let anchor :=
          createDefinition escapeHtml (getStart (ast node)) (getText (ast node))
            (CString (getText (ast node)))
            (String.length (getText (ast node))) in
        r_with r = anchor
        \/ exists link,
             r_with r
             = createRef escapeHtml (getStart (ast node)) link (CTokens anchor)
                 (String.length (getText (ast node)))).

(** A call that touches nothing but the cache, and only adds to it. *)
Definition growsCache (st st' : State) : Prop :=
  replacements st' = replacements st
  /\ console st' = console st
  /\ idCache st ⊆ idCache st'
  /\ (cacheRespectsExports (idCache st) -> cacheRespectsExports (idCache st')).

(** The node whose span a visit of [n] may replace. *)
Definition targetOf (n : NodeId) : option NodeId :=
  match kind (ast n) with
  | Identifier => Some n
  | _ => literalSpecifier n
  end.

(** One visit keeps the cache entries it found, keeps the cache invariant,
    and pushes at most one replacement, over the span of the visited node's
    target. *)
Definition visitEffect (n : NodeId) (st st' : State) : Prop :=
  idCache st ⊆ idCache st'
  /\ (cacheRespectsExports (idCache st) -> cacheRespectsExports (idCache st'))
  /\ (replacements st' = replacements st
      \/ exists r t,
           targetOf n = Some t
           /\ replacements st' = (replacements st ++ [r])%list
           /\ r_start r = getStart (ast t)
           /\ r_end r = getEnd (ast t)).

(** The replacements a traversal adds, paired with the nodes whose visit
    pushed them. *)
Definition replaces (n : NodeId) (r : Replacement) : Prop :=
  exists t, targetOf n = Some t
            /\ r_start r = getStart (ast t)
            /\ r_end r = getEnd (ast t).

(** The state after [console.log(msg, symbol)]. *)
Definition logged (st : State) (msg : string) (sym : Symbol) : State :=
  mkState (idCache st) (console st ++ [(msg, sym)]) (replacements st).

(** What the traversal relies on in the parser's tree: module specifiers
    are string literals hanging below their declaration, and the identifiers
    and specifier literals of the file are distinct stretches of text. *)
Definition parentIs (c p : NodeId) : bool :=
  bool_decide (parent (ast c) = Some p).

Definition specifierShape (d : NodeId) : bool :=
  match kind (ast d) with
  | ImportDeclaration | ExportDeclaration =>
    match moduleSpecifier (ast d) with
    | Some s => parentIs s d && isKind ast StringLiteral s
    | None => true
    end
  | ImportEqualsDeclaration =>
    match moduleReference (ast d) with
    | Some ref =>
      match expression (ast ref) with
      | Some s =>
        if isKind ast StringLiteral s
        then isKind ast ExternalModuleReference ref
             && parentIs ref d && parentIs s ref
        else true
      | None => true
      end
    | None => true
    end
  | _ => true
  end.

Definition separated (a b : NodeId) : bool :=
  (getEnd (ast a) <=? getStart (ast b))%nat
  || (getEnd (ast b) <=? getStart (ast a))%nat.

Definition leafSpans (targets : list NodeId) : bool :=
  forallb
    (fun a =>
       (getStart (ast a) <? getEnd (ast a))%nat
       && forallb (fun b => bool_decide (a = b) || separated a b) targets)
    targets.

Definition wellFormedTree (order : list NodeId) : bool :=
  bool_decide (NoDup order)
  && forallb specifierShape order
  && leafSpans (omap targetOf order).






(** A definition anchor wrapping a link, the shape C4 states. *)
Definition anchorWrapsLink (r : Replacement) : Prop :=
  exists start id href content len len',
    r_with r
    = createDefinition escapeHtml start id
        (CTokens (createRef escapeHtml start href content len)) len'.

(** A token that is a hyperlink: an [<a>] element with an [href]. *)
Definition isHyperlink (t : Token) : bool :=
  String.prefix "<a href=" (t_content t).

(** The declaring occurrence as C9 states it: the name of the first
    declaration that is not built-in, with a diagnostic when more than one
    is left. *)
Definition firstLocalDeclares (sym : Symbol) (node : NodeId) (st : State)
    : Prop :=
  forall decls d rest,
    declarations sym = Some decls ->
    1 < length decls ->
    List.filter (fun x => negb (isLibDeclaration ast x)) decls = d :: rest ->
    isDefinition ast sym node st
    = (Ret (sameNode (name (ast d)) node),
       match rest with
       | [] => st
       | _ :: _ => logged st "symbol has > 1 local declaration" sym
       end).

(** [a] is [n] or one of the nodes above it. *)
Inductive ancestorOrSelf : NodeId -> NodeId -> Prop :=
| ancestor_self (n : NodeId) : ancestorOrSelf n n
| ancestor_step (a n p : NodeId) :
    parent (ast n) = Some p -> ancestorOrSelf a p -> ancestorOrSelf a n.

(** [n] lies [d] parent links below a node without parent. *)
Inductive depth : NodeId -> nat -> Prop :=
| depth_root (n : NodeId) : parent (ast n) = None -> depth n 0
| depth_step (n p : NodeId) (d : nat) :
    parent (ast n) = Some p -> depth p d -> depth n (S d).

(** The state after [idCache.set(n, id)]. *)
Definition cached (st : State) (n : NodeId) (id : string) : State :=
  mkState (<[n := id]> (idCache st)) (console st) (replacements st).

(** A node [idFor] sends to the parameter rule: not cached, no export
    entry, a statement directly below the file, and a parameter at or above
    it whose owner has the name [fn]. *)
Definition parameterOf (fuel : nat) (n fn : NodeId) (st : State) : Prop :=
  idCache st !! n = None
  /\ exportEntryOf ast getSymbolAtLocation n st = (Ret None, st)
  /\ exists statement sp prm owner,
       getStatement ast fuel n = Some statement
       /\ parent (ast statement) = Some sp
       /\ kind (ast sp) = SourceFile
       /\ check ast fuel (Some n) = Some (Some prm)
       /\ parent (ast prm) = Some owner
       /\ name (ast owner) = Some fn.

(** A node [idFor] sends to the fallback rule: not cached, no export entry,
    and a statement that is not directly below the file. *)
Definition nestedNode (fuel : nat) (n : NodeId) (st : State) : Prop :=
  idCache st !! n = None
  /\ exportEntryOf ast getSymbolAtLocation n st = (Ret None, st)
  /\ exists statement sp,
       getStatement ast fuel n = Some statement
       /\ parent (ast statement) = Some sp
       /\ kind (ast sp) <> SourceFile.

(** The raw source text a replacement carries: its unsafe tokens. *)
Definition rawTokens (tokens : list Token) : list Token :=
  List.filter (fun t => negb (t_safe t)) tokens.

(** A visit of [n] that pushed nothing, or pushed a replacement whose only
    raw text is the text of [n] at the offset of [n]. *)
Definition keepsText (n : NodeId) (st st' : State) : Prop :=
  replacements st' = replacements st
  \/ exists r,
       replacements st' = (replacements st ++ [r])%list
       /\ rawTokens (r_with r) = [unsafe (getStart (ast n)) (getText (ast n))].

Local Abbreviation visit' := (visit escapeHtml ast getSymbolAtLocation).
Local Abbreviation idFor' := (idFor escapeHtml ast getSymbolAtLocation).
Local Abbreviation linkToDefinitions' :=
  (linkToDefinitions escapeHtml ast getSymbolAtLocation).

Ltac run := unfold bind, ret, deref, liftFuel, throw, diverge, push; simpl.
Ltac run_in H :=
  unfold bind, ret, deref, liftFuel, throw, diverge, push in H; simpl in H.

Lemma sameNode_refl (n : NodeId) : sameNode (Some n) n = true.
Proof. unfold sameNode. apply bool_decide_eq_true_2. reflexivity. Qed.

Lemma sameNode_true (o : option NodeId) (n : NodeId) :
  sameNode o n = true <-> o = Some n.
Proof. unfold sameNode. apply bool_decide_eq_true. Qed.

Lemma sameNode_false (o : option NodeId) (n : NodeId) :
  sameNode o n = false <-> o <> Some n.
Proof. unfold sameNode. apply bool_decide_eq_false. Qed.

(** *** The remote link resolver *)

Lemma getRemoteLink_eq
    (node statement specifier p gp : NodeId) (st : State) :
  moduleSpecifier (ast statement) = Some specifier ->
  parent (ast node) = Some p ->
  parent (ast p) = Some gp ->
  name (ast p) = Some node \/ propertyName (ast p) = Some node ->
  getRemoteLink ast node statement st
  = (Ret (text (ast specifier) +:+ "#" +:+ exportedName node p gp), st).
Proof.
  intros Hspec Hp Hgp Hbound.
  unfold getRemoteLink, exportedName.
  rewrite Hspec, Hp. run.
  destruct (propertyName (ast p)) as [pn|] eqn:Hpn; run; [reflexivity|].
  rewrite Hgp. run.
  destruct Hbound as [Hname|Hprop]; [|discriminate].
  rewrite Hname.
  destruct (isKind ast NamedImports gp || isKind ast NamedExports gp); reflexivity.
Qed.

(** C6: for an identifier bound through an import/export clause [p] (it is
    the clause's name or its rename source) of a statement with a module
    specifier, [getRemoteLink] returns the specifier's text, ["#"], and the
    exported name: the rename source's text if present, else the local
    name's text under a named import or export list, else ["default"]. *)
Theorem C6_getRemoteLink_module_hash_exported
    (node statement specifier p gp : NodeId) (st : State) :
  moduleSpecifier (ast statement) = Some specifier ->
  parent (ast node) = Some p ->
  parent (ast p) = Some gp ->
  name (ast p) = Some node \/ propertyName (ast p) = Some node ->
  getRemoteLink ast node statement st
  = (Ret (text (ast specifier) +:+ "#"
          +:+ match propertyName (ast p) with
              | Some renameSource => text (ast renameSource)
              | None =>
                if isKind ast NamedImports gp || isKind ast NamedExports gp
                then text (ast node)
                else "default"
              end), st).
Proof. exact (getRemoteLink_eq node statement specifier p gp st). Qed.

(** *** Names bound by a statement with a module specifier *)

Lemma visit_local_binding
    (fuel : nat) (sf node statement specifier p gp : NodeId) (st : State) :
  kind (ast node) = Identifier ->
  getStatement ast fuel node = Some statement ->
  moduleSpecifier (ast statement) = Some specifier ->
  parent (ast node) = Some p ->
  parent (ast p) = Some gp ->
  name (ast p) = Some node ->
  visit' fuel sf node st
  = (Ret tt,
     pushed st
       (mkReplacement (getStart (ast node)) (getEnd (ast node))
          (if remoteEligible node p
           then createRef escapeHtml (getStart (ast node))
                  (text (ast specifier) +:+ "#" +:+ exportedName node p gp)
                  (CTokens (boundAnchor statement node))
                  (String.length (getText (ast node)))
           else boundAnchor statement node))).
Proof.
  intros Hk Hst Hspec Hp Hgp Hname.
  unfold visit, visitIdentifier. rewrite Hk, Hst. run.
  rewrite Hspec. simpl. unfold visitImported. rewrite Hp. run.
  rewrite Hname, sameNode_refl. simpl.
  fold (remoteEligible node p).
  destruct (remoteEligible node p).
  - rewrite (getRemoteLink_eq node statement specifier p gp st) by auto.
    reflexivity.
  - reflexivity.
Qed.

(** C4 (amended): for an identifier with a module-specifier statement that
    is the locally bound name of its clause, the visitor emits one
    replacement over the identifier's span: when the name is eligible for a
    remote link, a link to the remote symbol wrapping a definition anchor
    (the link is the outer element); when it is not eligible, the definition
    anchor alone, with no outbound link. *)
Theorem C4_local_binding_link_wraps_anchor
    (fuel : nat) (sf node statement specifier p gp : NodeId) (st : State) :
  kind (ast node) = Identifier ->
  getStatement ast fuel node = Some statement ->
  moduleSpecifier (ast statement) = Some specifier ->
  parent (ast node) = Some p ->
  parent (ast p) = Some gp ->
  name (ast p) = Some node ->
  exists (id : string) (r : Replacement),
    visit' fuel sf node st = (Ret tt, pushed st r)
    /\ r_start r = getStart (ast node)
    /\ r_end r = getEnd (ast node)
    /\ let anchor :=
         createDefinition escapeHtml (getStart (ast node)) id
           (CString (getText (ast node)))
           (String.length (getText (ast node))) in
       (remoteEligible node p = true ->
        exists link,
          getRemoteLink ast node statement st = (Ret link, st)
          /\ r_with r
             = createRef escapeHtml (getStart (ast node)) link (CTokens anchor)
                 (String.length (getText (ast node))))
       /\ (remoteEligible node p = false -> r_with r = anchor).
Proof.
  intros Hk Hst Hspec Hp Hgp Hname.
  eexists (boundId statement node), _.
  split; [eapply visit_local_binding; eauto|].
  simpl. repeat split.
  - intros He. rewrite He. eexists. split; [|reflexivity].
    apply getRemoteLink_eq; auto.
  - intros He. rewrite He. reflexivity.
Qed.

(** C10 (amended): for the locally bound name of a statement with a module
    specifier (an import or export declaration), the anchor's id does not
    come from [idFor]: whatever the cache and the console hold, the visitor
    leaves them as they are and emits an anchor whose id is ["symbol-"]
    followed by the identifier's text when the statement is an import
    declaration, and the bare identifier text otherwise (an export
    declaration). *)
Theorem C10_bound_name_id_without_allocator
    (fuel : nat) (sf node statement specifier p gp : NodeId) :
  kind (ast node) = Identifier ->
  getStatement ast fuel node = Some statement ->
  moduleSpecifier (ast statement) = Some specifier ->
  parent (ast node) = Some p ->
  parent (ast p) = Some gp ->
  name (ast p) = Some node ->
  exists (id : string) (r : Replacement),
    (kind (ast statement) = ImportDeclaration ->
     id = "symbol-" +:+ getText (ast node))
    /\ (kind (ast statement) <> ImportDeclaration -> id = getText (ast node))
    /\ (let anchor :=
          createDefinition escapeHtml (getStart (ast node)) id
            (CString (getText (ast node)))
            (String.length (getText (ast node))) in
        r_with r = anchor
        \/ exists link,
             r_with r
             = createRef escapeHtml (getStart (ast node)) link (CTokens anchor)
                 (String.length (getText (ast node))))
    /\ forall st : State,
         visit' fuel sf node st
         = (Ret tt,
            mkState (idCache st) (console st) (replacements st ++ [r])).
Proof.
  intros Hk Hst Hspec Hp Hgp Hname.
  eexists (boundId statement node), _.
  split; [|split; [|split]].
  4: { intros st. eapply visit_local_binding; eauto. }
  - intros Hi. unfold boundId, isKind.
    rewrite bool_decide_eq_true_2 by assumption. reflexivity.
  - intros Hi. unfold boundId, isKind.
    rewrite bool_decide_eq_false_2 by assumption. reflexivity.
  - simpl. destruct (remoteEligible node p); [right; eexists|left]; reflexivity.
Qed.

(** *** Module specifiers *)

Lemma visit_specifier (fuel : nat) (sf d s : NodeId) (st : State) :
  literalSpecifier d = Some s ->
  visit' fuel sf d st
  = (Ret tt,
     pushed st
       (mkReplacement (getStart (ast s)) (getEnd (ast s))
          [safe (getStart (ast s)) (specifierMarkup sf s)])).
Proof.
  unfold literalSpecifier, visit. intros H.
  destruct (kind (ast d)); try discriminate.
  - rewrite H. reflexivity.
  - rewrite H. reflexivity.
  - destruct (moduleReference (ast d)) as [ref|]; [|discriminate]. run.
    destruct (expression (ast ref)) as [s'|]; [|discriminate].
    destruct (isKind ast StringLiteral s'); [|discriminate].
    injection H as ->. reflexivity.
Qed.

(** C5 (amended): for an import, export or import-equals declaration with a
    literal module specifier, the literal's span is replaced by one safe
    token: an [<a>] element of class [hljs-string] whose [href] is the
    escaped specifier text and whose body is the escaped source text of the
    literal.  It is a hyperlink to the module, and it is not a definition
    anchor. *)
Theorem C5_specifier_is_styled_hyperlink
    (fuel : nat) (sf d s : NodeId) (st : State) :
  literalSpecifier d = Some s ->
  exists markup : string,
    visit' fuel sf d st
    = (Ret tt,
       pushed st
         (mkReplacement (getStart (ast s)) (getEnd (ast s))
            [mkToken (getStart (ast s)) true markup]))
    /\ markup
       = "<a href=" +:+ dq +:+ escapeHtml (text (ast s)) +:+ dq
         +:+ " class=" +:+ dq +:+ "hljs-string" +:+ dq +:+ ">"
         +:+ escapeHtml
               (jsSubstring (text (ast sf)) (getStart (ast s)) (getEnd (ast s)))
         +:+ "</a>"
    /\ String.prefix "<a href=" markup = true
    /\ String.prefix "<span" markup = false.
Proof.
  intros H. exists (specifierMarkup sf s).
  split; [apply visit_specifier; assumption|].
  split; [reflexivity|]. split; reflexivity.
Qed.

(** *** Language-provided symbols *)


(** *** The identity allocator and its cache *)

Lemma cacheRespectsExports_empty : cacheRespectsExports ∅.
Proof. intros n id nm H. rewrite lookup_empty in H. discriminate. Qed.

Lemma findExport_find (symbol : option Symbol) (exps : list Symbol) (st : State) :
  forallb hasDeclarations exps = true ->
  findExport ast getSymbolAtLocation symbol exps st
  = (Ret (List.find (exportMatches symbol) exps), st).
Proof.
  induction exps as [|e exps IH]; intros Hd; [reflexivity|].
  simpl in Hd. apply andb_true_iff in Hd as [He Hd].
  simpl. unfold exportMatches at 1.
  unfold hasDeclarations in He.
  destruct (declarations e) as [decls|]; [|discriminate]. run.
  destruct (existsb _ decls); [reflexivity|]. apply IH, Hd.
Qed.

Lemma findExport_stateless (symbol : option Symbol) (exps : list Symbol)
    (st : State) :
  snd (findExport ast getSymbolAtLocation symbol exps st) = st.
Proof.
  induction exps as [|e exps IH]; [reflexivity|].
  simpl. destruct (declarations e) as [decls|]; run; [|reflexivity].
  destruct (existsb _ decls); [reflexivity|]. apply IH.
Qed.

Lemma exportEntryOf_stateless (n : NodeId) (st : State) :
  snd (exportEntryOf ast getSymbolAtLocation n st) = st.
Proof.
  unfold exportEntryOf.
  destruct (getSymbolAtLocation (getSourceFile (ast n))) as [ms|]; [|reflexivity].
  destruct (exports ms) as [exps|]; run; [|reflexivity].
  apply findExport_stateless.
Qed.

Lemma exportEntryOf_name (n : NodeId) (nm : string) (st : State) :
  exportNameOf n = Some nm ->
  exists e, exportEntryOf ast getSymbolAtLocation n st = (Ret (Some e), st)
            /\ symName e = nm.
Proof.
  unfold exportNameOf, exportEntryOf. intros H.
  destruct (getSymbolAtLocation (getSourceFile (ast n))) as [ms|]; [|discriminate].
  simpl in H. destruct (exports ms) as [exps|]; [|discriminate]. simpl in H.
  destruct (forallb hasDeclarations exps) eqn:Hd; [|discriminate].
  run. rewrite findExport_find by assumption.
  destruct (List.find _ exps) as [e|]; [|discriminate].
  injection H as <-. eauto.
Qed.

Lemma growsCache_refl (st : State) : growsCache st st.
Proof. repeat split; auto. Qed.

Ltac done_refl := intros [= <- <-]; apply growsCache_refl.

Lemma growsCache_trans (a b c : State) :
  growsCache a b -> growsCache b c -> growsCache a c.
Proof.
  intros (Hr & Hc & Hs & Hi) (Hr' & Hc' & Hs' & Hi').
  repeat split; try congruence; [etrans; eassumption | auto].
Qed.

Lemma idForBody_effect
    (rec : option NodeId -> M string) (fuel : nat) (n : NodeId)
    (st st' : State) (o : outcome string) :
  (forall node s o' s', rec node s = (o', s') -> growsCache s s') ->
  idForBody escapeHtml ast getSymbolAtLocation rec fuel n st = (o, st') ->
  growsCache st st'
  /\ forall id nm, o = Ret id -> exportNameOf n = Some nm -> id = nm.
Proof.
  intros Hrec H. unfold idForBody in H. unfold bind at 1 in H.
  destruct (exportNameOf n) as [nm|] eqn:Hnm.
  - destruct (exportEntryOf_name n nm st Hnm) as (e & He & Hname).
    rewrite He in H. run_in H. injection H as <- <-.
    split; [apply growsCache_refl|]. intros id nm' [= <-] [= <-]. assumption.
  - pose proof (exportEntryOf_stateless n st) as Hst.
    destruct (exportEntryOf ast getSymbolAtLocation n st) as [oe ste].
    simpl in Hst. subst ste.
    split; [|discriminate].
    destruct oe as [[e|]| |]; try (injection H as <- <-; apply growsCache_refl).
    revert H. run.
    destruct (getStatement ast fuel n) as [stmt|]; run; [|done_refl].
    destruct (parent (ast stmt)) as [sp|]; run; [|done_refl].
    destruct (negb (isKind ast SourceFile sp)); run; [done_refl|].
    destruct (check ast fuel (Some n)) as [[prm|]|]; run; try done_refl.
    destruct (parent (ast prm)) as [fnOwner|]; run; [|done_refl].
    destruct (name (ast fnOwner)) as [fn|]; run; [|done_refl].
    destruct (rec (Some fn) st) as [ofn stfn] eqn:Hfn.
    apply Hrec in Hfn.
    destruct ofn; intros [= <- <-]; assumption.
Qed.

Lemma idFor_effect (fuel : nat) :
  forall (node : option NodeId) (st : State) (o : outcome string) (st' : State),
    idFor' fuel node st = (o, st') -> growsCache st st'.
Proof.
  induction fuel as [|fuel IH]; intros node st o st' H.
  - injection H as <- <-. apply growsCache_refl.
  - simpl in H. destruct node as [n|];
      [|injection H as <- <-; apply growsCache_refl].
    revert H. unfold bind at 1. unfold deref, ret.
    unfold bind at 1. unfold cacheGet.
    destruct (idCache st !! n) as [id|] eqn:Hc;
      [intros [= <- <-]; apply growsCache_refl|].
    unfold bind at 1.
    destruct (idForBody escapeHtml ast getSymbolAtLocation
                (idFor' fuel) fuel n st) as [ob stb] eqn:Hb.
    apply idForBody_effect in Hb as [Hg Hid]; [|exact IH].
    destruct ob as [id| |]; try (intros [= <- <-]; exact Hg).
    unfold bind, cacheSet, ret. intros [= <- <-].
    destruct Hg as (Hr & Hcons & Hsub & Hinv).
    repeat split; simpl; auto.
    + apply insert_subseteq_r; assumption.
    + intros Hi n' id' nm Hl Hnm.
      destruct (decide (n = n')) as [<-|Hne].
      * rewrite lookup_insert_eq in Hl. injection Hl as <-.
        eapply Hid; eauto.
      * rewrite lookup_insert_ne in Hl by assumption.
        eapply Hinv; eauto.
Qed.

(** Memoization: once [idFor] has returned an id for a node, every later
    call on a cache that still holds the pass's entries returns that id. *)
Lemma idFor_memoized (fuel : nat) (n : NodeId) (st st' : State) (id : string) :
  idFor' fuel (Some n) st = (Ret id, st') -> idCache st' !! n = Some id.
Proof.
  destruct fuel as [|fuel]; [discriminate|]. simpl. run.
  destruct (idCache st !! n) as [id0|] eqn:Hc; run.
  - intros [= <- <-]. assumption.
  - destruct (idForBody escapeHtml ast getSymbolAtLocation
                (idFor' fuel) fuel n st) as [[id1| |] st1];
      try discriminate.
    unfold cacheSet. intros [= <- <-]. simpl. apply lookup_insert_eq.
Qed.

Lemma idFor_stable (fuel fuel' : nat) (n : NodeId) (st st' st2 : State)
    (id : string) :
  idFor' fuel (Some n) st = (Ret id, st') ->
  idCache st' ⊆ idCache st2 ->
  idFor' (S fuel') (Some n) st2 = (Ret id, st2).
Proof.
  intros H Hsub. apply idFor_memoized in H.
  simpl. run. rewrite (lookup_weaken _ _ _ _ H Hsub). reflexivity.
Qed.

(** *** What one visit does to the state *)

Lemma getRemoteLink_stateless (node statement : NodeId) (st : State) :
  snd (getRemoteLink ast node statement st) = st.
Proof.
  unfold getRemoteLink. run.
  destruct (moduleSpecifier (ast statement)); run; [|reflexivity].
  destruct (parent (ast node)) as [p|]; run; [|reflexivity].
  destruct (propertyName (ast p)); run; [reflexivity|].
  destruct (parent (ast p)) as [gp|]; run; [|reflexivity].
  destruct (isKind ast NamedImports gp || isKind ast NamedExports gp); run;
    [|reflexivity].
  destruct (name (ast p)); reflexivity.
Qed.

(** [isDefinition] can only write to the console. *)
Lemma isDefinition_effect (sym : Symbol) (node : NodeId) (st st' : State)
    (o : outcome bool) :
  isDefinition ast sym node st = (o, st') ->
  idCache st' = idCache st /\ replacements st' = replacements st.
Proof.
  unfold isDefinition.
  destruct (valueDeclaration sym); run; [intros [= <- <-]; auto|].
  destruct (declarations sym) as [decls|]; run; [|intros [= <- <-]; auto].
  destruct (1 <? length decls)%nat; run.
  - destruct (1 <? length (List.filter _ decls))%nat; run;
      (destruct (head (List.filter _ decls)); run; intros [= <- <-]; auto).
  - destruct (head decls); run; intros [= <- <-]; auto.
Qed.

Lemma visitEffect_refl (n : NodeId) (st : State) : visitEffect n st st.
Proof. repeat split; auto. Qed.

Lemma visitEffect_push (n : NodeId) (st : State) (tokens : list Token) :
  kind (ast n) = Identifier ->
  visitEffect n st
    (pushed st (mkReplacement (getStart (ast n)) (getEnd (ast n)) tokens)).
Proof.
  intros Hk. repeat split; auto. right. eexists _, n.
  unfold targetOf. rewrite Hk. repeat split; reflexivity.
Qed.

Lemma visitEffect_grows_push (n : NodeId) (st st1 : State)
    (tokens : list Token) :
  kind (ast n) = Identifier ->
  growsCache st st1 ->
  visitEffect n st
    (pushed st1 (mkReplacement (getStart (ast n)) (getEnd (ast n)) tokens)).
Proof.
  intros Hk (Hr & Hc & Hs & Hi). repeat split; auto. right. eexists _, n.
  unfold targetOf. rewrite Hk. simpl. rewrite Hr. repeat split; reflexivity.
Qed.

Lemma visitEffect_grows (n : NodeId) (st st1 : State) :
  growsCache st st1 -> visitEffect n st st1.
Proof. intros (Hr & Hc & Hs & Hi). repeat split; auto. Qed.

Ltac done_visit :=
  intros [= <- <-];
  first [ apply visitEffect_refl
        | apply visitEffect_push; assumption ].

Lemma visitImported_effect (node statement : NodeId) (st st' : State)
    (o : outcome bool) :
  kind (ast node) = Identifier ->
  visitImported escapeHtml ast node statement st = (o, st') ->
  visitEffect node st st'
  /\ (o = Ret false -> st' = st).
Proof.
  intros Hk. unfold visitImported. run.
  destruct (parent (ast node)) as [p|]; run;
    [|intros [= <- <-]; split; [apply visitEffect_refl|discriminate]].
  destruct (sameNode (name (ast p)) node); simpl.
  - destruct (_ && _); run.
    + pose proof (getRemoteLink_stateless node statement st) as Hl.
      destruct (getRemoteLink ast node statement st) as [ol stl].
      simpl in Hl. subst stl.
      destruct ol; intros [= <- <-];
        (split; [first [apply visitEffect_refl
                       |apply visitEffect_push; assumption]
                |discriminate]).
    + intros [= <- <-].
      split; [apply visitEffect_push; assumption|discriminate].
  - intros [= <- <-]. split; [apply visitEffect_refl|reflexivity].
Qed.

Lemma visitUnresolved_effect (node statement : NodeId) (st st' : State)
    (o : outcome bool) :
  kind (ast node) = Identifier ->
  visitUnresolved escapeHtml ast node statement st = (o, st') ->
  visitEffect node st st'.
Proof.
  intros Hk. unfold visitUnresolved. run.
  destruct (parent (ast node)) as [p|]; run; [|done_visit].
  destruct (_ && _); run; [|done_visit].
  pose proof (getRemoteLink_stateless node statement st) as Hl.
  destruct (getRemoteLink ast node statement st) as [ol stl].
  simpl in Hl. subst stl.
  destruct ol; done_visit.
Qed.

Lemma visitResolved_effect (fuel : nat) (node : NodeId) (sym : Symbol)
    (st st' : State) (o : outcome unit) :
  kind (ast node) = Identifier ->
  visitResolved escapeHtml ast getSymbolAtLocation fuel node sym st = (o, st') ->
  idCache st ⊆ idCache st'
  /\ (cacheRespectsExports (idCache st) -> cacheRespectsExports (idCache st'))
  /\ (replacements st' = replacements st
      \/ exists r,
           replacements st' = (replacements st ++ [r])%list
           /\ r_start r = getStart (ast node)
           /\ r_end r = getEnd (ast node)).
Proof.
  intros Hk. unfold visitResolved.
  destruct (declarations sym) as [[|d0 decls]|];
    try (intros [= <- <-]; repeat split; auto).
  destruct (forallb _ _); [intros [= <- <-]; repeat split; auto|].
  unfold bind at 1.
  destruct (isDefinition ast sym node st) as [od std] eqn:Hd.
  apply isDefinition_effect in Hd as [Hdc Hdr].
  destruct od as [isDef| |];
    try (intros [= <- <-]; rewrite Hdc, Hdr; repeat split; auto).
  unfold bind at 1.
  assert (Hgen : forall (target : option NodeId) (mk : string -> list Token)
                   (o1 : outcome (list Token)) (st1 : State),
             (id <~ idFor' fuel target ;; ret (mk id)) std = (o1, st1) ->
             growsCache std st1).
  { intros target mk o1 st1. unfold bind.
    destruct (idFor' fuel target std) as [oi sti] eqn:Hi.
    apply idFor_effect in Hi.
    destruct oi; intros [= <- <-]; assumption. }
  match goal with
  | |- context [(if isDef then ?a else ?b) std] =>
    destruct ((if isDef then a else b) std) as [ot stt] eqn:Ht
  end.
  assert (Hg : growsCache std stt).
  { destruct isDef; eapply Hgen; exact Ht. }
  destruct Hg as (Hr & Hc & Hs & Hi).
  rewrite Hdc in Hs, Hi. rewrite Hdr in Hr.
  destruct ot; intros [= <- <-]; repeat split; auto.
  right. eexists. simpl. rewrite Hr. repeat split; reflexivity.
Qed.

Lemma visit_effect (fuel : nat) (sf n : NodeId) (st st' : State)
    (o : outcome unit) :
  visit' fuel sf n st = (o, st') -> visitEffect n st st'.
Proof.
  unfold visit.
  destruct (literalSpecifier n) as [s|] eqn:Hs.
  { intros _H.
    pose proof (visit_specifier fuel sf n s st Hs) as Hv.
    unfold visit in Hv. rewrite Hv in _H. injection _H as <- <-.
    repeat split; auto. right. eexists _, s.
    split; [|repeat split].
    unfold targetOf.
    destruct (kind (ast n)) eqn:Hk; try exact Hs.
    unfold literalSpecifier in Hs. rewrite Hk in Hs. discriminate. }
  destruct (kind (ast n)) eqn:Hk; try (intros [= <- <-]; apply visitEffect_refl).
  - (* Identifier *)
    unfold visitIdentifier. run.
    destruct (getStatement ast fuel n) as [statement|]; run; [|done_visit].
    assert (Hrest : forall st0 o0 st1,
              match getSymbolAtLocation n with
              | Some sym =>
                visitResolved escapeHtml ast getSymbolAtLocation fuel n sym
              | None =>
                fun st2 =>
                  let (o1, st'1) :=
                    visitUnresolved escapeHtml ast n statement st2 in
                  match o1 with
                  | Ret _ => (Ret tt, st'1)
                  | Throw e => (Throw e, st'1)
                  | Diverge => (Diverge, st'1)
                  end
              end st0 = (o0, st1) ->
              visitEffect n st0 st1).
    { intros st0 o0 st1.
      destruct (getSymbolAtLocation n) as [sym|].
      - intros H. apply visitResolved_effect in H as (Ha & Hb & Hc); [|assumption].
        repeat split; auto.
        destruct Hc as [Hc|(r & Hc1 & Hc2 & Hc3)]; [left; assumption|].
        right. exists r, n. unfold targetOf. rewrite Hk. auto.
      - destruct (visitUnresolved escapeHtml ast n statement st0) as [ou stu] eqn:Hu.
        apply visitUnresolved_effect in Hu; [|assumption].
        destruct ou; intros [= <- <-]; assumption. }
    destruct (truthy (moduleSpecifier (ast statement))).
    + destruct (visitImported escapeHtml ast n statement st) as [oi sti] eqn:Hi.
      apply visitImported_effect in Hi as [Hi Hfalse]; [|assumption].
      destruct oi as [[|]| |]; try (intros [= <- <-]; assumption).
      rewrite (Hfalse eq_refl). apply Hrest.
    + simpl. apply Hrest.
  - (* ImportDeclaration *)
    unfold literalSpecifier in Hs. rewrite Hk in Hs. rewrite Hs.
    intros [= <- <-]. apply visitEffect_refl.
  - unfold literalSpecifier in Hs. rewrite Hk in Hs. rewrite Hs.
    intros [= <- <-]. apply visitEffect_refl.
  - unfold literalSpecifier in Hs. rewrite Hk in Hs. run.
    destruct (moduleReference (ast n)) as [ref|]; run; [|done_visit].
    destruct (expression (ast ref)) as [s|]; [|done_visit].
    destruct (isKind ast StringLiteral s); [discriminate|done_visit].
Qed.

Lemma forEach_visit_effect (fuel : nat) (sf : NodeId) (order : list NodeId) :
  forall (st st' : State) (o : outcome unit),
    forEach order (visit' fuel sf) st = (o, st') ->
    idCache st ⊆ idCache st'
    /\ (cacheRespectsExports (idCache st) -> cacheRespectsExports (idCache st'))
    /\ exists visited rs,
         sublist visited order
         /\ replacements st' = (replacements st ++ rs)%list
         /\ Forall2 replaces visited rs.
Proof.
  induction order as [|n order IH]; intros st st' o.
  - intros [= <- <-]. repeat split; auto.
    exists [], []. rewrite app_nil_r. repeat split; constructor.
  - simpl. unfold bind at 1.
    destruct (visit' fuel sf n st) as [ov stv] eqn:Hv.
    apply visit_effect in Hv as (Hsub & Hinv & Hrep).
    assert (Hhere : exists visited rs,
               sublist visited [n]
               /\ replacements stv = (replacements st ++ rs)%list
               /\ Forall2 replaces visited rs).
    { destruct Hrep as [Hrep|(r & t & Ht & Hrep & Hs & He)].
      - exists [], []. rewrite app_nil_r.
        repeat split; auto using sublist_nil_l; constructor.
      - exists [n], [r]. split; [reflexivity|]. split; [assumption|].
        constructor; [|constructor]. exists t. auto. }
    destruct ov as [[]| |].
    + intros H. apply IH in H as (Hsub' & Hinv' & visited' & rs' & Hv' & Hr' & Hf').
      destruct Hhere as (visited & rs & Hv1 & Hr1 & Hf1).
      split; [etrans; eassumption|]. split; [auto|].
      exists (visited ++ visited')%list, (rs ++ rs')%list.
      split; [|split].
      * change (n :: order) with ([n] ++ order)%list.
        apply sublist_app; assumption.
      * rewrite Hr', Hr1. rewrite <- app_assoc. reflexivity.
      * apply Forall2_app; assumption.
    + intros [= <- <-]. split; [assumption|]. split; [assumption|].
      destruct Hhere as (visited & rs & Hv1 & Hr1 & Hf1).
      exists visited, rs. repeat split; auto.
      change (n :: order) with ([n] ++ order)%list.
      rewrite <- (app_nil_r visited).
      apply sublist_app; auto using sublist_nil_l.
    + intros [= <- <-]. split; [assumption|]. split; [assumption|].
      destruct Hhere as (visited & rs & Hv1 & Hr1 & Hf1).
      exists visited, rs. repeat split; auto.
      change (n :: order) with ([n] ++ order)%list.
      rewrite <- (app_nil_r visited).
      apply sublist_app; auto using sublist_nil_l.
Qed.

(** For a declaration the symbol rules handle, the anchor and the
    references agree: the declaring occurrence [dn] is anchored with the id
    [idFor] gives it, and a reference visited later in the pass links to
    ["#"] followed by that same id. *)
Lemma reference_links_to_anchor_id
    (fuel fuel' : nat) (sym : Symbol) (d0 : NodeId) (ds : list NodeId)
    (dn ref : NodeId) (id : string) (st st1 st2 : State) :
  declarations sym = Some (d0 :: ds) ->
  forallb (isLibDeclaration ast)
    (option_list (valueDeclaration sym) ++ d0 :: ds) = false ->
  name (ast (default d0 (valueDeclaration sym))) = Some dn ->
  isDefinition ast sym dn st = (Ret true, st) ->
  isDefinition ast sym ref st2 = (Ret false, st2) ->
  idFor' fuel (Some dn) st = (Ret id, st1) ->
  idCache st1 ⊆ idCache st2 ->
  visitResolved escapeHtml ast getSymbolAtLocation fuel dn sym st
  = (Ret tt,
     pushed st1
       (mkReplacement (getStart (ast dn)) (getEnd (ast dn))
          (createDefinition escapeHtml (getStart (ast dn)) id
             (CString (getText (ast dn))) (String.length (getText (ast dn))))))
  /\ visitResolved escapeHtml ast getSymbolAtLocation (S fuel') ref sym st2
     = (Ret tt,
        pushed st2
          (mkReplacement (getStart (ast ref)) (getEnd (ast ref))
             (createRef escapeHtml (getStart (ast ref)) ("#" +:+ id)
                (CString (getText (ast ref)))
                (String.length (getText (ast ref)))))).
Proof.
  intros Hd Hlib Hname Hdef Href Hid Hsub.
  unfold visitResolved. rewrite Hd, Hlib, Hname. split.
  - unfold bind at 1. rewrite Hdef.
    unfold bind at 1. unfold bind at 1. rewrite Hid. reflexivity.
  - unfold bind at 1. rewrite Href.
    unfold bind at 1. unfold bind at 1.
    rewrite (idFor_stable fuel fuel' dn st st1 st2 id Hid Hsub). reflexivity.
Qed.

(** *** The cache at the end of a pass *)

Lemma forEach_app {A} (a b : list A) (f : A -> M unit) (st : State) :
  forEach (a ++ b) f st
  = match forEach a f st with
    | (Ret _, st1) => forEach b f st1
    | (Throw e, st1) => (Throw e, st1)
    | (Diverge, st1) => (Diverge, st1)
    end.
Proof.
  revert st. induction a as [|x a IH]; intros st; [reflexivity|].
  simpl. unfold bind.
  destruct (f x st) as [[[]| |] st1]; [apply IH|reflexivity|reflexivity].
Qed.

(** C2 (amended): a pass whose traversal completes returns the replacements
    with the cache cleared.  A pass whose traversal fails (the visitor
    throws, or the walk does not finish) hands the failure on and clears
    nothing: the caller is left with exactly the state of the traversal at
    the failure, and every entry the cache held after any completed part of
    the traversal is still in it. *)
Theorem C2_cache_cleared_only_when_pass_completes
    (fuel : nat) (sf : NodeId) (st : State) :
  match walkAST ast fuel sf (visit' fuel sf)
          (mkState (idCache st) (console st) []) with
  | (Ret _, st1) =>
    linkToDefinitions' fuel sf st
    = (Ret (replacements st1), mkState ∅ (console st1) (replacements st1))
  | (Throw e, st1) =>
    linkToDefinitions' fuel sf st = (Throw e, st1)
    /\ idCache st ⊆ idCache st1
    /\ forall (visited rest : list NodeId) (stVisited : State),
         preorder ast fuel sf = Some (visited ++ rest)%list ->
         forEach visited (visit' fuel sf)
           (mkState (idCache st) (console st) [])
         = (Ret tt, stVisited) ->
         idCache stVisited ⊆ idCache st1
  | (Diverge, st1) =>
    linkToDefinitions' fuel sf st = (Diverge, st1)
    /\ idCache st ⊆ idCache st1
  end.
Proof.
  destruct (walkAST ast fuel sf (visit' fuel sf)
              (mkState (idCache st) (console st) [])) as [o st1] eqn:Hw.
  assert (Hl : linkToDefinitions' fuel sf st
               = match o with
                 | Ret _ =>
                   (Ret (replacements st1),
                    mkState ∅ (console st1) (replacements st1))
                 | Throw e => (Throw e, st1)
                 | Diverge => (Diverge, st1)
                 end).
  { unfold linkToDefinitions. unfold bind at 1. unfold bind at 1.
    rewrite Hw. destruct o; reflexivity. }
  assert (Hsub : idCache st ⊆ idCache st1).
  { revert Hw. unfold walkAST. run.
    destruct (preorder ast fuel sf) as [order|]; run.
    - intros Hf. apply forEach_visit_effect in Hf as (Hs & _). exact Hs.
    - intros [= <- <-]. reflexivity. }
  destruct o as [[]|e|]; [exact Hl| |split; assumption].
  split; [exact Hl|]. split; [exact Hsub|].
  intros visited rest stVisited Hp Hv.
  revert Hw. unfold walkAST. run. rewrite Hp. run.
  rewrite forEach_app, Hv.
  intros Hf. apply forEach_visit_effect in Hf as (Hs & _). exact Hs.
Qed.

(** *** The export rule of [idFor] *)

Lemma sameSymbol_Some_r (o : option Symbol) (sym : Symbol) :
  sameSymbol o (Some sym) = true
  <-> exists s, o = Some s /\ symId s = symId sym.
Proof.
  destruct o as [s|]; simpl.
  - rewrite bool_decide_eq_true. split.
    + intros H. exists s. auto.
    + intros (s' & [= <-] & H). exact H.
  - split; [discriminate|]. intros (s & H & _). discriminate.
Qed.

Lemma declResolvesTo_spec (sym : Symbol) (decl : NodeId) :
  declResolvesTo ast getSymbolAtLocation (Some sym) decl = true
  <-> resolvesByNameOrSource sym decl.
Proof.
  unfold declResolvesTo, resolvesByNameOrSource.
  rewrite orb_true_iff, !sameSymbol_Some_r. split.
  - intros [(s & H & Hs)|(s & H & Hs)].
    + left. destruct (propertyName (ast decl)) as [pn|]; [|discriminate].
      exists pn, s. auto.
    + right. destruct (name (ast decl)) as [nm|]; [|discriminate].
      exists nm, s. auto.
  - intros [(pn & s & Hpn & H & Hs)|(nm & s & Hnm & H & Hs)].
    + left. exists s. rewrite Hpn. auto.
    + right. exists s. rewrite Hnm. auto.
Qed.

Lemma exportMatches_spec (sym x : Symbol) :
  exportMatches (Some sym) x = true <-> exportsSymbol sym x.
Proof.
  unfold exportMatches, exportsSymbol. rewrite existsb_exists. split.
  - intros (d & Hin & Hd).
    destruct (declarations x) as [decls|]; simpl in Hin; [|destruct Hin].
    exists decls, d. split; [reflexivity|].
    split; [apply list_elem_of_In; exact Hin|].
    apply declResolvesTo_spec. exact Hd.
  - intros (decls & d & Hd & Hin & Hr). rewrite Hd. simpl.
    exists d. split; [apply list_elem_of_In; exact Hin|].
    apply declResolvesTo_spec. exact Hr.
Qed.

Lemma find_first {A} (f : A -> bool) (pre : list A) (e : A) (post : list A) :
  (forall y, y ∈ pre -> f y = false) ->
  f e = true ->
  List.find f (pre ++ e :: post) = Some e.
Proof.
  induction pre as [|y pre IH]; intros Hpre He; simpl.
  - rewrite He. reflexivity.
  - rewrite (Hpre y) by left. apply IH; [|exact He].
    intros z Hz. apply Hpre. right. exact Hz.
Qed.

Lemma find_splits {A} (f : A -> bool) (l : list A) (e : A) :
  List.find f l = Some e ->
  exists pre post,
    l = (pre ++ e :: post)%list
    /\ f e = true
    /\ forall y, y ∈ pre -> f y = false.
Proof.
  induction l as [|x l IH]; simpl; [discriminate|].
  destruct (f x) eqn:Hx.
  - intros [= <-]. exists [], l. split; [reflexivity|]. split; [exact Hx|].
    intros y Hy. inversion Hy.
  - intros H. destruct (IH H) as (pre & post & -> & He & Hpre).
    exists (x :: pre), post. split; [reflexivity|]. split; [exact He|].
    intros y Hy. apply elem_of_cons in Hy as [->|Hy]; [exact Hx|auto].
Qed.

Lemma firstExportOf_find
    (node : NodeId) (sym : Symbol) (exps : list Symbol) (e : Symbol) :
  getSymbolAtLocation node = Some sym ->
  firstExportOf sym exps e ->
  List.find (exportMatches (getSymbolAtLocation node)) exps = Some e.
Proof.
  intros Hs (pre & post & -> & He & Hpre). rewrite Hs.
  apply find_first; [|apply exportMatches_spec; exact He].
  intros y Hy. destruct (exportMatches (Some sym) y) eqn:E; [|reflexivity].
  apply exportMatches_spec in E. destruct (Hpre y Hy E).
Qed.

Lemma firstExportOf_exists (sym : Symbol) (exps : list Symbol) (x : Symbol) :
  x ∈ exps ->
  exportsSymbol sym x ->
  exists e, firstExportOf sym exps e.
Proof.
  intros Hx Hm.
  destruct (List.find (exportMatches (Some sym)) exps) as [e|] eqn:Hfind.
  - destruct (find_splits _ _ _ Hfind) as (pre & post & -> & He & Hpre).
    exists e, pre, post. split; [reflexivity|].
    split; [apply exportMatches_spec; exact He|].
    intros y Hy Hmy. apply exportMatches_spec in Hmy.
    rewrite (Hpre y Hy) in Hmy. discriminate.
  - apply list_elem_of_In in Hx.
    pose proof (find_none _ _ Hfind x Hx) as Hn.
    apply exportMatches_spec in Hm. congruence.
Qed.

(** The caches of a pass hold export names: the empty cache respects the
    export rule, every visit keeps it so, and a cache that does holds the
    public name of the first export of a node's symbol. *)
Lemma cacheRespectsExports_holds_names (c : gmap NodeId string) :
  cacheRespectsExports c -> cacheHoldsExportNames c.
Proof.
  intros H n id sym ms exps e Hc Hs Hms He Hd Hf.
  apply (H n id (symName e) Hc).
  unfold exportNameOf. rewrite Hms. simpl. rewrite He. simpl.
  rewrite Hd, (firstExportOf_find n sym exps e Hs Hf). reflexivity.
Qed.

(** C7: when the module of a node has an export list, all of whose entries
    have declarations, and some entry has a declaration that resolves (by
    rename-source name or by local name) to the node's symbol, [idFor]
    returns the public name of the first such entry, and no fallback rule
    is consulted: the state is left as it was, or with that one name cached
    for the node. *)
Theorem C7_idFor_returns_first_matching_export
    (fuel : nat) (node : NodeId) (sym ms : Symbol) (exps : list Symbol)
    (st : State) :
  cacheHoldsExportNames (idCache st) ->
  getSymbolAtLocation node = Some sym ->
  getSymbolAtLocation (getSourceFile (ast node)) = Some ms ->
  exports ms = Some exps ->
  forallb hasDeclarations exps = true ->
  (exists x, x ∈ exps /\ exportsSymbol sym x) ->
  exists (e : Symbol) (st' : State),
    firstExportOf sym exps e
    /\ idFor' (S fuel) (Some node) st = (Ret (symName e), st')
    /\ (st' = st \/ st' = cached st node (symName e)).
Proof.
  intros Hinv Hsym Hms Hexps Hdecl (x & Hx & Hmatch).
  destruct (firstExportOf_exists sym exps x Hx Hmatch) as [e Hfirst].
  exists e.
  destruct (idCache st !! node) as [id|] eqn:Hc.
  - exists st. split; [exact Hfirst|]. split; [|left; reflexivity].
    simpl. run. rewrite Hc. run.
    rewrite (Hinv node id sym ms exps e Hc Hsym Hms Hexps Hdecl Hfirst).
    reflexivity.
  - exists (cached st node (symName e)). split; [exact Hfirst|].
    split; [|right; reflexivity].
    assert (Hname : exportNameOf node = Some (symName e)).
    { unfold exportNameOf. rewrite Hms. simpl. rewrite Hexps. simpl.
      rewrite Hdecl, (firstExportOf_find node sym exps e Hsym Hfirst).
      reflexivity. }
    destruct (exportEntryOf_name node _ st Hname) as (e' & He' & Hn').
    simpl. run. rewrite Hc. run.
    unfold idForBody. unfold bind at 1. rewrite He'. run.
    rewrite Hn'. reflexivity.
Qed.

(** *** The declaring occurrence *)

(** C9 (amended): for a symbol with several declaration sites, of which at
    least one is not built-in: if the symbol has a value declaration, the
    declaring occurrence is that declaration's name, with no filtering and
    no diagnostic; otherwise built-in declarations are discarded and the
    first remaining declaration's name is the declaring occurrence, and when
    more than one remains a diagnostic is logged and the call still returns. *)
Theorem C9_declaring_occurrence
    (sym : Symbol) (node : NodeId) (decls : list NodeId) (d : NodeId)
    (rest : list NodeId) (st : State) :
  declarations sym = Some decls ->
  1 < length decls ->
  List.filter (fun x => negb (isLibDeclaration ast x)) decls = d :: rest ->
  isDefinition ast sym node st
  = match valueDeclaration sym with
    | Some vd => (Ret (sameNode (name (ast vd)) node), st)
    | None =>
      (Ret (sameNode (name (ast d)) node),
       match rest with
       | [] => st
       | _ :: _ => logged st "symbol has > 1 local declaration" sym
       end)
    end.
Proof.
  intros Hd Hlen Hf. unfold isDefinition.
  destruct (valueDeclaration sym); [reflexivity|].
  rewrite Hd. run.
  apply Nat.ltb_lt in Hlen. rewrite Hlen. rewrite Hf. simpl.
  destruct rest; reflexivity.
Qed.

(** *** Replacements do not overlap *)
















(** *** Statements and parameters above a node *)

Lemma getStatement_spec (fuel : nat) :
  forall n s,
    getStatement ast fuel n = Some s ->
    ancestorOrSelf s n
    /\ (parent (ast s) = None
        \/ exists p, parent (ast s) = Some p /\ isStatementContainer ast p = true).
Proof.
  induction fuel as [|fuel IH]; intros n s H; [discriminate|].
  simpl in H. destruct (parent (ast n)) as [p|] eqn:Hp.
  - destruct (isStatementContainer ast p) eqn:Hc.
    + injection H as <-. split; [constructor|]. right. eauto.
    + apply IH in H as [Ha Hb]. split; [|assumption].
      eapply ancestor_step; eassumption.
  - injection H as <-. split; [constructor|]. left. assumption.
Qed.

Lemma getStatement_fuel (f1 : nat) :
  forall f2 n s1 s2,
    getStatement ast f1 n = Some s1 ->
    getStatement ast f2 n = Some s2 -> s1 = s2.
Proof.
  induction f1 as [|f1 IH]; intros f2 n s1 s2 H1 H2; [discriminate|].
  destruct f2 as [|f2]; [discriminate|]. simpl in H1, H2.
  destruct (parent (ast n)) as [p|]; [|congruence].
  destruct (isStatementContainer ast p); [congruence|].
  eapply IH; eassumption.
Qed.

(** X1: for a node [d] parent links below the root, [getStatement] returns
    with fuel [d + 1]; the result is the node or one of its ancestors, its
    parent is missing or is a file, block, module block or case clause, it
    is its own statement, and no other fuel gives a different answer. *)
Theorem X1_getStatement_nearest_statement (n : NodeId) (d : nat) :
  depth n d ->
  exists s,
    getStatement ast (S d) n = Some s
    /\ ancestorOrSelf s n
    /\ (parent (ast s) = None
        \/ exists p, parent (ast s) = Some p
                     /\ isStatementContainer ast p = true)
    /\ (forall k, getStatement ast (S k) s = Some s)
    /\ (forall fuel s', getStatement ast fuel n = Some s' -> s' = s).
Proof.
  intros Hd.
  assert (Hex : exists s, getStatement ast (S d) n = Some s).
  { induction Hd as [n Hp|n p d Hp Hd IH].
    - exists n. simpl. rewrite Hp. reflexivity.
    - destruct IH as [s Hs]. simpl. rewrite Hp.
      destruct (isStatementContainer ast p); [eauto|].
      exists s. exact Hs. }
  destruct Hex as [s Hs]. exists s.
  destruct (getStatement_spec _ _ _ Hs) as [Ha Hb].
  repeat split; auto.
  - intros k. simpl. destruct Hb as [->|(p & -> & ->)]; reflexivity.
  - intros fuel s' Hs'. eapply getStatement_fuel; eassumption.
Qed.

Lemma check_spec (fuel : nat) :
  forall n r,
    check ast fuel (Some n) = Some r ->
    match r with
    | Some prm =>
      kind (ast prm) = ParameterDeclaration /\ ancestorOrSelf prm n
    | None =>
      forall a, ancestorOrSelf a n -> kind (ast a) <> ParameterDeclaration
    end.
Proof.
  induction fuel as [|fuel IH]; intros n r H; [discriminate|].
  simpl in H. destruct (isKind ast ParameterDeclaration n) eqn:Hk.
  - injection H as <-. split; [|constructor].
    unfold isKind in Hk. apply bool_decide_eq_true in Hk. assumption.
  - unfold isKind in Hk. apply bool_decide_eq_false in Hk.
    destruct (parent (ast n)) as [p|] eqn:Hp.
    + apply IH in H. destruct r as [prm|].
      * destruct H as [H1 H2]. split; [assumption|].
        eapply ancestor_step; eassumption.
      * intros a Ha. inversion Ha as [|? ? p' Hp' Ha']; subst; [assumption|].
        apply H. congruence.
    + destruct fuel as [|fuel]; [discriminate|]. simpl in H.
      injection H as <-. intros a Ha.
      inversion Ha as [|? ? p' Hp' Ha']; subst; [assumption|congruence].
Qed.

(** X2: for a node [d] parent links below the root, the parameter search of
    [idFor] returns with fuel [d + 2]: either a parameter declaration that is
    the node or one of its ancestors, or [false] when neither the node nor
    any ancestor is a parameter declaration. *)
Theorem X2_check_finds_enclosing_parameter (n : NodeId) (d : nat) :
  depth n d ->
  exists r,
    check ast (S (S d)) (Some n) = Some r
    /\ match r with
       | Some prm =>
         kind (ast prm) = ParameterDeclaration /\ ancestorOrSelf prm n
       | None =>
         forall a, ancestorOrSelf a n -> kind (ast a) <> ParameterDeclaration
       end.
Proof.
  intros Hd.
  assert (Hex : exists r, check ast (S (S d)) (Some n) = Some r).
  { induction Hd as [n Hp|n p d Hp Hd IH].
    - simpl. rewrite Hp. destruct (isKind ast ParameterDeclaration n); eauto.
    - destruct IH as [r Hr]. cbn [check]. cbn [check] in Hr. rewrite Hp.
      destruct (isKind ast ParameterDeclaration n); eauto. }
  destruct Hex as [r Hr]. exists r. split; [assumption|].
  eapply check_spec. eassumption.
Qed.

(** *** The rules of [idFor] below the export rule *)

Lemma idFor_miss (fuel : nat) (n : NodeId) (st : State) :
  idCache st !! n = None ->
  idFor' (S fuel) (Some n) st
  = match idForBody escapeHtml ast getSymbolAtLocation (idFor' fuel) fuel n st with
    | (Ret id, st1) => (Ret id, cached st1 n id)
    | (Throw e, st1) => (Throw e, st1)
    | (Diverge, st1) => (Diverge, st1)
    end.
Proof.
  intros Hc. simpl. run. rewrite Hc. run.
  destruct (idForBody escapeHtml ast getSymbolAtLocation (idFor' fuel) fuel n st)
    as [[id| |] st1]; reflexivity.
Qed.

Lemma idFor_parameter_rule
    (fuel : nat) (n fn : NodeId) (st st1 : State) (fid : string) :
  parameterOf fuel n fn st ->
  idFor' fuel (Some fn) st = (Ret fid, st1) ->
  idFor' (S fuel) (Some n) st
  = (Ret (fid +:+ "-" +:+ getText (ast n)),
     cached st1 n (fid +:+ "-" +:+ getText (ast n))).
Proof.
  intros (Hc & He & stmt & sp & prm & owner & Hs & Hsp & Hk & Hch & Hpo & Hn) Hfn.
  rewrite idFor_miss by assumption.
  unfold idForBody. unfold bind at 1. rewrite He, Hs. run.
  rewrite Hsp. run. unfold isKind. rewrite bool_decide_eq_true_2 by assumption.
  simpl. rewrite Hch. run. rewrite Hpo. run. rewrite Hn, Hfn. reflexivity.
Qed.

Lemma idFor_fallback_rule (fuel : nat) (n : NodeId) (st : State) :
  nestedNode fuel n st ->
  let id := "symbol-" +:+ escapeHtml (getText (ast n)) +:+ "-"
            +:+ pretty (getStart (ast n)) in
  idFor' (S fuel) (Some n) st = (Ret id, cached st n id).
Proof.
  intros (Hc & He & stmt & sp & Hs & Hsp & Hk). cbv zeta.
  rewrite idFor_miss by assumption.
  unfold idForBody. unfold bind at 1. rewrite He, Hs. run.
  rewrite Hsp. run. unfold isKind. rewrite bool_decide_eq_false_2 by assumption.
  reflexivity.
Qed.

Lemma string_length_app (a b : string) :
  String.length (a +:+ b) = String.length a + String.length b.
Proof.
  induction a as [|c a IH]; [reflexivity|].
  change (S (String.length (a +:+ b)) = S (String.length a + String.length b)).
  rewrite IH. reflexivity.
Qed.

Lemma string_app_inv_tail (s : string) :
  forall a b : string, a +:+ s = b +:+ s -> a = b.
Proof.
  induction a as [|x a IH]; intros [|y b] H; [reflexivity| | |].
  - apply (f_equal String.length) in H.
    change (String y b +:+ s) with (String y (b +:+ s)) in H.
    change (EmptyString +:+ s) with s in H.
    simpl in H. rewrite string_length_app in H. lia.
  - apply (f_equal String.length) in H.
    change (String x a +:+ s) with (String x (a +:+ s)) in H.
    change (EmptyString +:+ s) with s in H.
    simpl in H. rewrite string_length_app in H. lia.
  - change (String x (a +:+ s) = String y (b +:+ s)) in H.
    injection H as -> H. f_equal. apply IH. assumption.
Qed.

(** X3: a name in a parameter of a function directly below the file gets
    the hierarchical id [<id of the function's name>-<text>], computed by a
    recursive call and then cached; two such names with the same text get
    different ids whenever the ids of their functions differ. *)
Theorem X3_parameter_ids_follow_functions
    (fuel : nat) (n1 n2 fn1 fn2 : NodeId) (st1 st2 st1' st2' : State)
    (fid1 fid2 : string) :
  parameterOf fuel n1 fn1 st1 ->
  parameterOf fuel n2 fn2 st2 ->
  idFor' fuel (Some fn1) st1 = (Ret fid1, st1') ->
  idFor' fuel (Some fn2) st2 = (Ret fid2, st2') ->
  getText (ast n1) = getText (ast n2) ->
  fid1 <> fid2 ->
  exists id1 id2,
    idFor' (S fuel) (Some n1) st1 = (Ret id1, cached st1' n1 id1)
    /\ idFor' (S fuel) (Some n2) st2 = (Ret id2, cached st2' n2 id2)
    /\ id1 = fid1 +:+ "-" +:+ getText (ast n1)
    /\ id2 = fid2 +:+ "-" +:+ getText (ast n2)
    /\ id1 <> id2.
Proof.
  intros Hp1 Hp2 Hf1 Hf2 Htext Hne.
  eexists _, _.
  split; [eapply idFor_parameter_rule; eassumption|].
  split; [eapply idFor_parameter_rule; eassumption|].
  split; [reflexivity|]. split; [reflexivity|].
  rewrite Htext. intros H. apply Hne.
  eapply string_app_inv_tail. exact H.
Qed.

(** X4: a node whose statement is not directly below the file (and that no
    export entry names) gets the fallback id
    [symbol-<escaped text>-<start offset>], which is then cached; two such
    nodes with the same text at different offsets get different ids. *)
Theorem X4_nested_ids_differ_by_offset
    (fuel : nat) (n1 n2 : NodeId) (st1 st2 : State) :
  nestedNode fuel n1 st1 ->
  nestedNode fuel n2 st2 ->
  getText (ast n1) = getText (ast n2) ->
  getStart (ast n1) <> getStart (ast n2) ->
  exists id1 id2,
    idFor' (S fuel) (Some n1) st1 = (Ret id1, cached st1 n1 id1)
    /\ idFor' (S fuel) (Some n2) st2 = (Ret id2, cached st2 n2 id2)
    /\ id1 = "symbol-" +:+ escapeHtml (getText (ast n1)) +:+ "-"
             +:+ pretty (getStart (ast n1))
    /\ id1 <> id2.
Proof.
  intros H1 H2 Htext Hstart.
  eexists _, _.
  split; [exact (idFor_fallback_rule fuel n1 st1 H1)|].
  split; [exact (idFor_fallback_rule fuel n2 st2 H2)|].
  split; [reflexivity|].
  rewrite Htext. intros H. apply Hstart.
  do 3 apply String.app_inj in H.
  apply (inj pretty) in H. exact H.
Qed.

(** X5: for the locally bound name of an import declaration directly below
    the file, which no export entry names and which is not inside a
    parameter, the anchor the visitor emits and [idFor] agree: both give the
    id ["symbol-"] followed by the name's text, so a reference resolved
    through [idFor] links to that anchor. *)
Theorem X5_top_level_import_anchor_matches_idFor
    (fuel : nat) (sf node statement specifier p gp sp : NodeId)
    (st st2 : State) :
  kind (ast node) = Identifier ->
  getStatement ast fuel node = Some statement ->
  moduleSpecifier (ast statement) = Some specifier ->
  parent (ast node) = Some p ->
  parent (ast p) = Some gp ->
  name (ast p) = Some node ->
  kind (ast statement) = ImportDeclaration ->
  parent (ast statement) = Some sp ->
  kind (ast sp) = SourceFile ->
  check ast fuel (Some node) = Some None ->
  idCache st2 !! node = None ->
  exportEntryOf ast getSymbolAtLocation node st2 = (Ret None, st2) ->
  let id := "symbol-" +:+ getText (ast node) in
  let anchor :=
    createDefinition escapeHtml (getStart (ast node)) id
      (CString (getText (ast node))) (String.length (getText (ast node))) in
  (exists r,
     visit' fuel sf node st = (Ret tt, pushed st r)
     /\ (r_with r = anchor
         \/ exists link,
              r_with r
              = createRef escapeHtml (getStart (ast node)) link
                  (CTokens anchor) (String.length (getText (ast node)))))
  /\ idFor' (S fuel) (Some node) st2 = (Ret id, cached st2 node id).
Proof.
  intros Hk Hst Hspec Hp Hgp Hname Himp Hsp Hsf Hch Hc He. cbv zeta. split.
  - eexists. split; [eapply visit_local_binding; eassumption|].
    simpl. unfold boundAnchor, boundId, isKind.
    rewrite bool_decide_eq_true_2 by assumption.
    destruct (remoteEligible node p); [right; eexists|left]; reflexivity.
  - rewrite idFor_miss by assumption.
    unfold idForBody. unfold bind at 1. rewrite He, Hst. run.
    rewrite Hsp. run. unfold isKind.
    rewrite bool_decide_eq_true_2 by assumption. simpl.
    rewrite Hch. reflexivity.
Qed.

(** X6: within a pass an id is stable: once [idFor] has returned an id for
    a node, then after any further visits of the traversal a call of
    [idFor] on that node returns the same id from the cache and changes
    nothing. *)
Theorem X6_idFor_stable_across_visits
    (fuel fuel' vfuel : nat) (sf n : NodeId) (order : list NodeId)
    (st st1 st2 : State) (id : string) (o : outcome unit) :
  idFor' fuel (Some n) st = (Ret id, st1) ->
  forEach order (visit' vfuel sf) st1 = (o, st2) ->
  idFor' (S fuel') (Some n) st2 = (Ret id, st2).
Proof.
  intros Hid Hvisits.
  apply forEach_visit_effect in Hvisits as (Hsub & _).
  eapply idFor_stable; eassumption.
Qed.

(** X7: [idFor] writes nothing but cache entries: whatever it returns, the
    replacements and the console are untouched, and every entry the cache
    held is still there with the same id. *)
Theorem X7_idFor_only_adds_cache_entries
    (fuel : nat) (node : option NodeId) (st : State) :
  replacements (snd (idFor' fuel node st)) = replacements st
  /\ console (snd (idFor' fuel node st)) = console st
  /\ idCache st ⊆ idCache (snd (idFor' fuel node st)).
Proof.
  destruct (idFor' fuel node st) as [o st'] eqn:H.
  apply idFor_effect in H as (Hr & Hc & Hs & _). simpl. auto.
Qed.

(** *** [isDefinition] under the visitor's guard *)

Lemma filter_local_nonempty (decls : list NodeId) :
  forallb (isLibDeclaration ast) decls = false ->
  exists d rest,
    List.filter (fun x => negb (isLibDeclaration ast x)) decls = d :: rest.
Proof.
  induction decls as [|x decls IH]; [discriminate|]. simpl.
  destruct (isLibDeclaration ast x); simpl; eauto.
Qed.

Lemma filter_local_empty (decls : list NodeId) :
  forallb (isLibDeclaration ast) decls = true ->
  List.filter (fun x => negb (isLibDeclaration ast x)) decls = [].
Proof.
  induction decls as [|x decls IH]; [reflexivity|]. simpl.
  destruct (isLibDeclaration ast x); simpl; [assumption|discriminate].
Qed.

(** X8: where the visitor calls it (the symbol has declarations and not all
    of them, the value declaration included, are built-in), [isDefinition]
    always returns: it never throws, leaves the cache and the replacements
    alone, and writes at most one line to the console. *)
Theorem X8_isDefinition_returns_under_guard
    (sym : Symbol) (node d0 : NodeId) (ds : list NodeId) (st : State) :
  declarations sym = Some (d0 :: ds) ->
  forallb (isLibDeclaration ast)
    (option_list (valueDeclaration sym) ++ d0 :: ds) = false ->
  exists (b : bool) (st' : State),
    isDefinition ast sym node st = (Ret b, st')
    /\ idCache st' = idCache st
    /\ replacements st' = replacements st
    /\ (console st' = console st
        \/ console st'
           = (console st ++ [("symbol has > 1 local declaration", sym)])%list).
Proof.
  intros Hd Hlib. unfold isDefinition.
  destruct (valueDeclaration sym) as [vd|].
  - eexists _, st. repeat split; auto.
  - rewrite Hd. run. simpl in Hlib.
    destruct (1 <? S (length ds))%nat.
    + run.
      destruct (filter_local_nonempty (d0 :: ds) Hlib) as (d & rest & Hf).
      simpl in Hf. rewrite Hf.
      destruct (1 <? length (d :: rest))%nat; run;
        eexists _, _; (split; [reflexivity|]); simpl; auto.
    + run. eexists _, st. repeat split; auto.
Qed.

(** X9: called on a symbol without value declaration whose several
    declarations are all built-in, [isDefinition] throws a [TypeError]: the
    filtered list is empty but truthy, so its first element is read from
    [undefined].  Nothing is logged or changed. *)
Theorem X9_isDefinition_all_builtin_throws
    (sym : Symbol) (node : NodeId) (decls : list NodeId) (st : State) :
  valueDeclaration sym = None ->
  declarations sym = Some decls ->
  1 < length decls ->
  forallb (isLibDeclaration ast) decls = true ->
  isDefinition ast sym node st = (Throw typeError, st).
Proof.
  intros Hv Hd Hlen Hlib. unfold isDefinition. rewrite Hv, Hd. run.
  apply Nat.ltb_lt in Hlen. rewrite Hlen. run.
  rewrite (filter_local_empty decls Hlib). reflexivity.
Qed.

(** *** The remaining rows of the classifier *)

(** X10: an identifier without symbol that is the rename source of its
    clause ([a] in [{ a as b }]) in a statement with a module specifier is
    replaced by a link to the remote symbol, [<specifier text>#<its text>],
    around its raw text, with no anchor. *)
Theorem X10_unresolved_rename_source_links_remote
    (fuel : nat) (sf node statement specifier p : NodeId) (st : State) :
  kind (ast node) = Identifier ->
  getStatement ast fuel node = Some statement ->
  moduleSpecifier (ast statement) = Some specifier ->
  parent (ast node) = Some p ->
  name (ast p) <> Some node ->
  propertyName (ast p) = Some node ->
  getSymbolAtLocation node = None ->
  visit' fuel sf node st
  = (Ret tt,
     pushed st
       (mkReplacement (getStart (ast node)) (getEnd (ast node))
          (createRef escapeHtml (getStart (ast node))
             (text (ast specifier) +:+ "#" +:+ text (ast node))
             (CString (getText (ast node)))
             (String.length (getText (ast node)))))).
Proof.
  intros Hk Hst Hspec Hp Hname Hprop Hsym.
  unfold visit, visitIdentifier. rewrite Hk, Hst, Hsym. run.
  rewrite Hspec. simpl. unfold visitImported. rewrite Hp. run.
  apply sameNode_false in Hname. rewrite Hname. simpl.
  unfold visitUnresolved. rewrite Hp. run.
  rewrite Hprop, sameNode_refl, Hspec. simpl.
  unfold getRemoteLink. rewrite Hspec, Hp. run. rewrite Hprop. reflexivity.
Qed.

(** X11: an identifier that is not the locally bound name of a statement
    with a module specifier is left untouched when it has no symbol and is
    not a rename source under a module specifier, and also when its symbol
    has no declarations: the visitor returns and the state is unchanged. *)
Theorem X11_unresolved_identifier_untouched
    (fuel : nat) (sf node statement p : NodeId) (st : State) :
  kind (ast node) = Identifier ->
  getStatement ast fuel node = Some statement ->
  parent (ast node) = Some p ->
  moduleSpecifier (ast statement) = None \/ name (ast p) <> Some node ->
  match getSymbolAtLocation node with
  | None =>
    propertyName (ast p) <> Some node
    \/ moduleSpecifier (ast statement) = None
  | Some sym => declarations sym = None \/ declarations sym = Some []
  end ->
  visit' fuel sf node st = (Ret tt, st).
Proof.
  intros Hk Hst Hp Hrow Hsym.
  unfold visit, visitIdentifier. rewrite Hk, Hst.
  destruct (getSymbolAtLocation node) as [sym|].
  - assert (Hres : visitResolved escapeHtml ast getSymbolAtLocation fuel node
                     sym st = (Ret tt, st)).
    { unfold visitResolved. destruct Hsym as [->| ->]; reflexivity. }
    run. destruct Hrow as [Hn|Hname].
    + rewrite Hn. simpl. exact Hres.
    + destruct (moduleSpecifier (ast statement)); simpl; [|exact Hres].
      unfold visitImported. rewrite Hp. run.
      apply sameNode_false in Hname. rewrite Hname. simpl. exact Hres.
  - assert (Hun : visitUnresolved escapeHtml ast node statement st
                  = (Ret false, st)).
    { unfold visitUnresolved. rewrite Hp. run.
      destruct Hsym as [Hprop|Hn].
      - apply sameNode_false in Hprop. rewrite Hprop. reflexivity.
      - rewrite Hn, andb_false_r. reflexivity. }
    run. destruct Hrow as [Hn|Hname].
    + rewrite Hn. simpl. rewrite Hun. reflexivity.
    + destruct (moduleSpecifier (ast statement)); simpl;
        [|rewrite Hun; reflexivity].
      unfold visitImported. rewrite Hp. run.
      apply sameNode_false in Hname. rewrite Hname. simpl.
      rewrite Hun. reflexivity.
Qed.

(** X12: a reference to a symbol whose value declaration is a node without
    [name] makes the visit throw a [TypeError] ([idFor] is handed
    [undefined]); nothing is pushed and the state is unchanged. *)
Theorem X12_nameless_declaration_throws
    (fuel : nat) (sf node statement vd d0 : NodeId) (ds : list NodeId)
    (sym : Symbol) (st : State) :
  kind (ast node) = Identifier ->
  getStatement ast fuel node = Some statement ->
  moduleSpecifier (ast statement) = None ->
  getSymbolAtLocation node = Some sym ->
  declarations sym = Some (d0 :: ds) ->
  valueDeclaration sym = Some vd ->
  name (ast vd) = None ->
  forallb (isLibDeclaration ast)
    (option_list (valueDeclaration sym) ++ d0 :: ds) = false ->
  visit' fuel sf node st = (Throw typeError, st).
Proof.
  intros Hk Hst Hspec Hsym Hd Hv Hname Hlib.
  destruct fuel as [|fuel]; [discriminate|].
  unfold visit, visitIdentifier. rewrite Hk, Hst, Hsym. run.
  rewrite Hspec. simpl.
  unfold visitResolved. rewrite Hd, Hlib, Hv. simpl. rewrite Hname.
  unfold isDefinition. rewrite Hv, Hname. reflexivity.
Qed.

(** X13: for a symbol with a value declaration whose name is an
    identifier, outside statements with a module specifier, anchor and
    references agree: the name of the value declaration is replaced by an
    anchor whose id is the one [idFor] returns for it, and any other
    occurrence of the symbol visited later in the pass is replaced by a link
    to ["#"] followed by that id. *)
Theorem X13_value_declaration_anchor_and_references_agree
    (fuel fuel' : nat) (sf dn ref s1 s2 vd d0 : NodeId) (ds : list NodeId)
    (sym : Symbol) (id : string) (st st1 st2 : State) :
  kind (ast dn) = Identifier ->
  kind (ast ref) = Identifier ->
  getStatement ast fuel dn = Some s1 ->
  getStatement ast (S fuel') ref = Some s2 ->
  moduleSpecifier (ast s1) = None ->
  moduleSpecifier (ast s2) = None ->
  getSymbolAtLocation dn = Some sym ->
  getSymbolAtLocation ref = Some sym ->
  declarations sym = Some (d0 :: ds) ->
  valueDeclaration sym = Some vd ->
  name (ast vd) = Some dn ->
  ref <> dn ->
  isLibDeclaration ast vd = false ->
  idFor' fuel (Some dn) st = (Ret id, st1) ->
  idCache st1 ⊆ idCache st2 ->
  visit' fuel sf dn st
  = (Ret tt,
     pushed st1
       (mkReplacement (getStart (ast dn)) (getEnd (ast dn))
          (createDefinition escapeHtml (getStart (ast dn)) id
             (CString (getText (ast dn))) (String.length (getText (ast dn))))))
  /\ visit' (S fuel') sf ref st2
     = (Ret tt,
        pushed st2
          (mkReplacement (getStart (ast ref)) (getEnd (ast ref))
             (createRef escapeHtml (getStart (ast ref)) ("#" +:+ id)
                (CString (getText (ast ref)))
                (String.length (getText (ast ref)))))).
Proof.
  intros Hk1 Hk2 Hs1 Hs2 Hm1 Hm2 Hy1 Hy2 Hd Hv Hname Hne Hlib Hid Hsub.
  assert (Hlibs : forallb (isLibDeclaration ast)
                    (option_list (valueDeclaration sym) ++ d0 :: ds) = false).
  { rewrite Hv. simpl. rewrite Hlib. reflexivity. }
  assert (Hname' : name (ast (default d0 (valueDeclaration sym))) = Some dn).
  { rewrite Hv. exact Hname. }
  assert (Hdef : isDefinition ast sym dn st = (Ret true, st)).
  { unfold isDefinition. rewrite Hv, Hname, sameNode_refl. reflexivity. }
  assert (Href : isDefinition ast sym ref st2 = (Ret false, st2)).
  { unfold isDefinition. rewrite Hv, Hname.
    assert (Hf : sameNode (Some dn) ref = false).
    { apply sameNode_false. intros [= ->]. apply Hne. reflexivity. }
    rewrite Hf. reflexivity. }
  destruct (reference_links_to_anchor_id fuel fuel' sym d0 ds dn ref id
              st st1 st2 Hd Hlibs Hname' Hdef Href Hid Hsub) as [Ha Hb].
  split.
  - unfold visit, visitIdentifier. rewrite Hk1, Hs1, Hy1. run.
    rewrite Hm1. simpl. exact Ha.
  - unfold visit, visitIdentifier. rewrite Hk2, Hs2, Hy2. run.
    rewrite Hm2. simpl. exact Hb.
Qed.

(** *** The text of a replaced identifier *)

Lemma rawTokens_createDefinition (start : nat) (id t : string) (len : nat) :
  rawTokens (createDefinition escapeHtml start id (CString t) len)
  = [unsafe start t].
Proof. reflexivity. Qed.

Lemma rawTokens_createRef (start : nat) (href t : string) (len : nat) :
  rawTokens (createRef escapeHtml start href (CString t) len)
  = [unsafe start t].
Proof. reflexivity. Qed.

Lemma rawTokens_createRef_tokens
    (start : nat) (href : string) (ts : list Token) (len : nat) :
  rawTokens (createRef escapeHtml start href (CTokens ts) len) = rawTokens ts.
Proof.
  unfold rawTokens, createRef. simpl.
  rewrite List.filter_app. simpl. apply app_nil_r.
Qed.

Lemma keepsText_push (n : NodeId) (st st1 : State) (tokens : list Token) :
  replacements st1 = replacements st ->
  rawTokens tokens = [unsafe (getStart (ast n)) (getText (ast n))] ->
  keepsText n st
    (pushed st1 (mkReplacement (getStart (ast n)) (getEnd (ast n)) tokens)).
Proof.
  intros Hr Ht. right. eexists. simpl. rewrite Hr.
  split; [reflexivity|exact Ht].
Qed.

Lemma visitImported_text (node statement : NodeId) (st st' : State)
    (o : outcome bool) :
  visitImported escapeHtml ast node statement st = (o, st') ->
  keepsText node st st' /\ (o = Ret false -> st' = st).
Proof.
  unfold visitImported. run.
  destruct (parent (ast node)) as [p|]; run;
    [|intros [= <- <-]; split; [left; reflexivity|discriminate]].
  destruct (sameNode (name (ast p)) node); simpl.
  - destruct (_ && _); run.
    + pose proof (getRemoteLink_stateless node statement st) as Hl.
      destruct (getRemoteLink ast node statement st) as [ol stl].
      simpl in Hl. subst stl.
      destruct ol; intros [= <- <-];
        (split; [|discriminate]); try (left; reflexivity).
      apply keepsText_push; [reflexivity|].
      rewrite rawTokens_createRef_tokens. apply rawTokens_createDefinition.
    + intros [= <- <-]. split; [|discriminate].
      apply keepsText_push; [reflexivity|apply rawTokens_createDefinition].
  - intros [= <- <-]. split; [left|]; reflexivity.
Qed.

Lemma visitUnresolved_text (node statement : NodeId) (st st' : State)
    (o : outcome bool) :
  visitUnresolved escapeHtml ast node statement st = (o, st') ->
  keepsText node st st'.
Proof.
  unfold visitUnresolved. run.
  destruct (parent (ast node)) as [p|]; run;
    [|intros [= <- <-]; left; reflexivity].
  destruct (_ && _); run; [|intros [= <- <-]; left; reflexivity].
  pose proof (getRemoteLink_stateless node statement st) as Hl.
  destruct (getRemoteLink ast node statement st) as [ol stl].
  simpl in Hl. subst stl.
  destruct ol; intros [= <- <-]; try (left; reflexivity).
  apply keepsText_push; [reflexivity|apply rawTokens_createRef].
Qed.

Lemma visitResolved_text (fuel : nat) (node : NodeId) (sym : Symbol)
    (st st' : State) (o : outcome unit) :
  visitResolved escapeHtml ast getSymbolAtLocation fuel node sym st = (o, st') ->
  keepsText node st st'.
Proof.
  unfold visitResolved.
  destruct (declarations sym) as [[|d0 decls]|];
    try (intros [= <- <-]; left; reflexivity).
  destruct (forallb _ _); [intros [= <- <-]; left; reflexivity|].
  unfold bind at 1.
  destruct (isDefinition ast sym node st) as [od std] eqn:Hd.
  apply isDefinition_effect in Hd as [_ Hdr].
  destruct od as [isDef| |];
    try (intros [= <- <-]; left; assumption).
  unfold bind at 1.
  assert (Hgen : forall (target : option NodeId) (mk : string -> list Token)
                   (o1 : outcome (list Token)) (st1 : State),
             (id <~ idFor' fuel target ;; ret (mk id)) std = (o1, st1) ->
             replacements st1 = replacements std
             /\ forall tokens, o1 = Ret tokens -> exists id, tokens = mk id).
  { intros target mk o1 st1. unfold bind.
    destruct (idFor' fuel target std) as [oi sti] eqn:Hi.
    apply idFor_effect in Hi as (Hr & _).
    destruct oi; intros [= <- <-]; (split; [assumption|]);
      intros tokens [= <-]. eexists. reflexivity. }
  match goal with
  | |- context [(if isDef then ?a else ?b) std] =>
    destruct ((if isDef then a else b) std) as [ot stt] eqn:Ht
  end.
  assert (Hraw : replacements stt = replacements st
                 /\ forall tokens,
                      ot = Ret tokens ->
                      rawTokens tokens
                      = [unsafe (getStart (ast node)) (getText (ast node))]).
  { destruct isDef; apply Hgen in Ht as [Hr Hmk];
      (split; [congruence|]); intros tokens Ho;
      destruct (Hmk tokens Ho) as [id ->].
    - apply rawTokens_createDefinition.
    - apply rawTokens_createRef. }
  destruct Hraw as [Hr Hraw].
  destruct ot as [tokens| |]; intros [= <- <-]; try (left; assumption).
  apply keepsText_push; [assumption|]. apply Hraw. reflexivity.
Qed.

(** X14: whatever the visitor does with an identifier, it keeps its text:
    the visit pushes nothing, or one replacement whose only unsafe token is
    the identifier's own text at the identifier's offset; all markup around
    it is in safe tokens. *)
Theorem X14_identifier_text_kept
    (fuel : nat) (sf n : NodeId) (st st' : State) (o : outcome unit) :
  kind (ast n) = Identifier ->
  visit' fuel sf n st = (o, st') ->
  replacements st' = replacements st
  \/ exists r,
       replacements st' = (replacements st ++ [r])%list
       /\ List.filter (fun t => negb (t_safe t)) (r_with r)
          = [mkToken (getStart (ast n)) false (getText (ast n))].
Proof.
  intros Hk. unfold visit. rewrite Hk. unfold visitIdentifier. run.
  destruct (getStatement ast fuel n) as [statement|]; run;
    [|intros [= <- <-]; left; reflexivity].
  assert (Hrest : forall st0 o0 st1,
            match getSymbolAtLocation n with
            | Some sym =>
              visitResolved escapeHtml ast getSymbolAtLocation fuel n sym
            | None =>
              fun st2 =>
                let (o1, st'1) :=
                  visitUnresolved escapeHtml ast n statement st2 in
                match o1 with
                | Ret _ => (Ret tt, st'1)
                | Throw e => (Throw e, st'1)
                | Diverge => (Diverge, st'1)
                end
            end st0 = (o0, st1) ->
            keepsText n st0 st1).
  { intros st0 o0 st1.
    destruct (getSymbolAtLocation n) as [sym|].
    - apply visitResolved_text.
    - destruct (visitUnresolved escapeHtml ast n statement st0) as [ou stu] eqn:Hu.
      apply visitUnresolved_text in Hu.
      destruct ou; intros [= <- <-]; assumption. }
  destruct (truthy (moduleSpecifier (ast statement))).
  - destruct (visitImported escapeHtml ast n statement st) as [oi sti] eqn:Hi.
    apply visitImported_text in Hi as [Hi Hfalse].
    destruct oi as [[|]| |]; try (intros [= <- <-]; exact Hi).
    rewrite (Hfalse eq_refl). apply Hrest.
  - simpl. apply Hrest.
Qed.

(** *** The replacements of a whole pass *)


(** *** Export entries without declarations *)

(** X16: [idFor] reads [declarations] of every export entry it passes:
    when an entry without declarations comes before any entry that
    matches the node's symbol, an uncached call throws a [TypeError] and
    caches nothing. *)
Theorem X16_idFor_throws_on_export_without_declarations
    (fuel : nat) (n : NodeId) (ms e : Symbol) (pre post : list Symbol)
    (st : State) :
  idCache st !! n = None ->
  getSymbolAtLocation (getSourceFile (ast n)) = Some ms ->
  exports ms = Some (pre ++ e :: post)%list ->
  forallb hasDeclarations pre = true ->
  forallb (fun x => negb (exportMatches (getSymbolAtLocation n) x)) pre = true ->
  declarations e = None ->
  idFor' (S fuel) (Some n) st = (Throw typeError, st).
Proof.
  intros Hc Hms Hex Hdecl Hno He.
  rewrite idFor_miss by assumption.
  unfold idForBody. unfold bind at 1.
  assert (Hfind : findExport ast getSymbolAtLocation (getSymbolAtLocation n)
                    (pre ++ e :: post) st = (Throw typeError, st)).
  { clear Hex. induction pre as [|x pre IH]; simpl.
    - rewrite He. reflexivity.
    - simpl in Hdecl, Hno.
      apply andb_true_iff in Hdecl as [Hx Hdecl].
      apply andb_true_iff in Hno as [Hnx Hno].
      unfold hasDeclarations in Hx. unfold exportMatches in Hnx.
      destruct (declarations x) as [decls|]; [|discriminate]. run.
      simpl in Hnx. apply negb_true_iff in Hnx. rewrite Hnx.
      apply IH; assumption. }
  unfold exportEntryOf. rewrite Hms, Hex. run. rewrite Hfind. reflexivity.
Qed.

End Properties.

(** ** Properties of the compiler host *)

Section HostProperties.

Variable readFileSync : string -> option string.
Variable createSourceFile : string -> string -> NodeId.

Lemma prefix_cons (a b : ascii) (s1 s2 : string) :
  String.prefix (String a s1) (String b s2) = true ->
  String.prefix s1 s2 = true.
Proof.
  change (String.prefix (String a s1) (String b s2))
    with (match ascii_dec a b with
          | left _ => String.prefix s1 s2
          | right _ => false
          end).
  destruct (ascii_dec a b); [auto|discriminate].
Qed.

Lemma prefix_includes (name : string) :
  String.prefix "/@ts:lib" name = true -> includes "@ts:lib" name = true.
Proof.
  intros H. destruct name as [|c rest]; [vm_compute in H; discriminate H|].
  apply prefix_cons in H.
  change (includes "@ts:lib" (String c rest))
    with (String.prefix "@ts:lib" (String c rest) || includes "@ts:lib" rest).
  apply orb_true_iff. right.
  destruct rest as [|c' rest']; [vm_compute in H; discriminate H|].
  change (includes "@ts:lib" (String c' rest'))
    with (String.prefix "@ts:lib" (String c' rest') || includes "@ts:lib" rest').
  apply orb_true_iff. left. exact H.
Qed.

(** X17: [loadLibFile] reads a library file once: after a call has returned
    a file, the cache holds everything it held before, and any later call
    for that name returns the same file from the cache, whatever the file
    system or the parser would now answer. *)
Theorem X17_loadLibFile_memoizes
    (name : string) (cache cache' : gmap string NodeId) (file : NodeId)
    (readFileSync' : string -> option string)
    (createSourceFile' : string -> string -> NodeId) :
  loadLibFile readFileSync createSourceFile name cache
  = (Ret (Some file), cache') ->
  cache ⊆ cache'
  /\ loadLibFile readFileSync' createSourceFile' name cache'
     = (Ret (Some file), cache').
Proof.
  unfold loadLibFile.
  destruct (includes "@ts:lib" name); simpl; [|discriminate].
  destruct (cache !! name) as [f|] eqn:Hc.
  - intros [= <- <-]. split; [reflexivity|]. rewrite Hc. reflexivity.
  - destruct (readFileSync (removeLibMarker name)) as [content|];
      [|discriminate].
    intros [= <- <-]. split.
    + apply insert_subseteq. assumption.
    + rewrite lookup_insert_eq. reflexivity.
Qed.

(** X18: the host is consistent with the loader: for every name
    [fileExists] accepts, [getSourceFile] does not answer [null]; it
    returns a source file, or the read of the library file throws. *)
Theorem X18_existing_files_are_never_null
    (pathname name : string) (sourceFile : NodeId)
    (cache : gmap string NodeId) :
  fileExists pathname name = true ->
  fst (hostGetSourceFile readFileSync createSourceFile pathname sourceFile
         name cache) <> Ret None.
Proof.
  unfold fileExists, hostGetSourceFile, loadLibFile. intros H.
  destruct (String.eqb name pathname); [discriminate|]. simpl in H.
  rewrite (prefix_includes name H). simpl.
  destruct (cache !! name); [discriminate|].
  destruct (readFileSync (removeLibMarker name)); discriminate.
Qed.

End HostProperties.

(** ** The collector on the concrete programs *)

Import Examples.

Lemma nested_pass :
  linkToDefinitions escapeHtmlStd nestedAst nestedOracle 20 1%positive emptyState
  = (Ret nestedReplacements, mkState ∅ [] nestedReplacements).
Proof. vm_compute. reflexivity. Qed.



(** The tree of [import x from foo.bar;] is not well formed: its module
    specifier is not a string literal. *)
Example malformed_tree_not_wellFormed :
  preorder malformedAst 20 1%positive = Some [1; 2; 3; 4; 5; 6; 7]%positive
  /\ specifierShape malformedAst 2%positive = false
  /\ wellFormedTree malformedAst [1; 2; 3; 4; 5; 6; 7]%positive = false.
Proof. repeat split; vm_compute; reflexivity. Qed.

(** C2, as stated, fails on [namespace N { export default 1 } N.default;]:
    the name of the namespace is anchored and its id cached; the visit of
    [default] in [N.default] then throws, its symbol's value declaration
    being an export assignment, which has no name; the pass fails and the
    entry for [N] is still in the cache. *)
Lemma C2_counterexample :
  exists st',
    linkToDefinitions escapeHtmlStd namespaceAst namespaceOracle 20 1%positive
      emptyState
    = (Throw typeError, st')
    /\ idCache st' !! 3%positive = Some "symbol-N"
    /\ idCache st' <> ∅.
Proof.
  eexists. split; [vm_compute; reflexivity|].
  split; [vm_compute; reflexivity|].
  intros H. apply (f_equal (fun m : gmap NodeId string => m !! 3%positive)) in H.
  vm_compute in H. discriminate.
Qed.

Lemma C2_witness :
  linkToDefinitions escapeHtmlStd namespaceAst namespaceOracle 20 1%positive
    emptyState
  = (Throw typeError, namespaceFailed)
  /\ idCache emptyState ⊆ idCache namespaceFailed
  /\ idCache namespaceNamed ⊆ idCache namespaceFailed.
Proof.
  pose proof (C2_cache_cleared_only_when_pass_completes escapeHtmlStd
                namespaceAst namespaceOracle 20 1%positive emptyState) as H.
  assert (Hw : walkAST namespaceAst 20 1%positive
                 (visit escapeHtmlStd namespaceAst namespaceOracle 20 1%positive)
                 (mkState (idCache emptyState) (console emptyState) [])
               = (Throw typeError, namespaceFailed)).
  { vm_compute. reflexivity. }
  rewrite Hw in H. destruct H as (Hl & Hs & Hv).
  split; [exact Hl|]. split; [exact Hs|].
  apply (Hv [1; 2; 3]%positive [4; 5; 6; 7; 8; 9; 10]%positive namespaceNamed).
  - vm_compute. reflexivity.
  - vm_compute. reflexivity.
Defined.

(** C3 (failing input): in the ambient-module program the symbol [x] has
    one declaration, the import specifier, and one reference, in [typeof x].
    The declaring occurrence is anchored with id [symbol-x]; the reference
    links to [#symbol-x-32], an id no anchor of the file carries. *)
Theorem C3_import_anchor_and_reference_ids_differ :
  declarations symX = Some [8%positive]
  /\ name (nestedAst 8%positive) = Some 9%positive
  /\ exists rs st',
       linkToDefinitions escapeHtmlStd nestedAst nestedOracle 20 1%positive
         emptyState = (Ret rs, st')
       /\ rs !! 1 = Some
            (mkReplacement 32 33
               (createRef escapeHtmlStd 32 "bar#x"
                  (CTokens (createDefinition escapeHtmlStd 32 "symbol-x"
                              (CString "x") 1)) 1))
       /\ rs !! 3 = Some
            (mkReplacement 71 72
               (createRef escapeHtmlStd 71 "#symbol-x-32" (CString "x") 1))
       /\ length rs = 4.
Proof.
  split; [reflexivity|]. split; [reflexivity|].
  eexists _, _. split; [apply nested_pass|].
  repeat split.
Qed.

(** C4, as stated, fails on [import { x } from "bar"]: [x] is the local
    name and eligible for a remote link, and the replacement is a link
    wrapping the anchor, not an anchor wrapping the link. *)
Lemma C4_counterexample :
  exists r,
    visit escapeHtmlStd nestedAst nestedOracle 20 1%positive 9%positive emptyState
    = (Ret tt, pushed emptyState r)
    /\ remoteEligible nestedAst 9%positive 8%positive = true
    /\ ~ anchorWrapsLink escapeHtmlStd r.
Proof.
  eexists. split; [vm_compute; reflexivity|].
  split; [reflexivity|].
  intros (start & id & href & content & len & len' & H).
  unfold createDefinition, safe in H. simpl in H.
  injection H as _ H _. discriminate H.
Qed.

Lemma C4_witness :
  kind (nestedAst 9%positive) = Identifier
  /\ getStatement nestedAst 20 9%positive = Some 5%positive
  /\ moduleSpecifier (nestedAst 5%positive) = Some 10%positive
  /\ parent (nestedAst 9%positive) = Some 8%positive
  /\ parent (nestedAst 8%positive) = Some 7%positive
  /\ name (nestedAst 8%positive) = Some 9%positive
  /\ exists (id : string) (r : Replacement),
       visit escapeHtmlStd nestedAst nestedOracle 20 1%positive 9%positive
         emptyState = (Ret tt, pushed emptyState r)
       /\ r_start r = 32
       /\ r_end r = 33
       /\ let anchor := createDefinition escapeHtmlStd 32 id (CString "x") 1 in
          (remoteEligible nestedAst 9%positive 8%positive = true ->
           exists link,
             getRemoteLink nestedAst 9%positive 5%positive emptyState
             = (Ret link, emptyState)
             /\ r_with r = createRef escapeHtmlStd 32 link (CTokens anchor) 1)
          /\ (remoteEligible nestedAst 9%positive 8%positive = false ->
              r_with r = anchor).
Proof.
  repeat (split; [reflexivity|]).
  exact (C4_local_binding_link_wraps_anchor escapeHtmlStd nestedAst nestedOracle
           20 1%positive 9%positive 5%positive 10%positive 8%positive 7%positive
           emptyState eq_refl eq_refl eq_refl eq_refl eq_refl eq_refl).
Defined.

(** C5, as stated, fails on [import { x } from "bar"]: the literal is
    replaced by an [<a href="bar">] element, a hyperlink. *)
Lemma C5_counterexample :
  exists tok,
    visit escapeHtmlStd nestedAst nestedOracle 20 1%positive 5%positive emptyState
    = (Ret tt, pushed emptyState (mkReplacement 41 46 [tok]))
    /\ t_content tok
       = "<a href=" +:+ dq +:+ "bar" +:+ dq +:+ " class=" +:+ dq
         +:+ "hljs-string" +:+ dq +:+ ">&quot;bar&quot;</a>"
    /\ isHyperlink tok = true.
Proof.
  eexists. split; [vm_compute; reflexivity|].
  split; reflexivity.
Qed.

Lemma C5_witness :
  literalSpecifier nestedAst 5%positive = Some 10%positive
  /\ exists markup : string,
       visit escapeHtmlStd nestedAst nestedOracle 20 1%positive 5%positive
         emptyState
       = (Ret tt,
          pushed emptyState (mkReplacement 41 46 [mkToken 41 true markup]))
       /\ markup
          = "<a href=" +:+ dq +:+ escapeHtmlStd "bar" +:+ dq
            +:+ " class=" +:+ dq +:+ "hljs-string" +:+ dq +:+ ">"
            +:+ escapeHtmlStd (jsSubstring nestedCode 41 46)
            +:+ "</a>"
       /\ String.prefix "<a href=" markup = true
       /\ String.prefix "<span" markup = false.
Proof.
  split; [reflexivity|].
  exact (C5_specifier_is_styled_hyperlink escapeHtmlStd nestedAst nestedOracle
           20 1%positive 5%positive 10%positive emptyState eq_refl).
Defined.

Lemma C6_witness :
  moduleSpecifier (reexportAst 2%positive) = Some 9%positive
  /\ parent (reexportAst 7%positive) = Some 5%positive
  /\ parent (reexportAst 5%positive) = Some 4%positive
  /\ (name (reexportAst 5%positive) = Some 7%positive
      \/ propertyName (reexportAst 5%positive) = Some 7%positive)
  /\ getRemoteLink reexportAst 7%positive 2%positive emptyState
     = (Ret "m#a", emptyState).
Proof.
  repeat (split; [first [reflexivity | left; reflexivity]|]).
  exact (C6_getRemoteLink_module_hash_exported reexportAst
           7%positive 2%positive 9%positive 5%positive 4%positive emptyState
           eq_refl eq_refl eq_refl (or_introl eq_refl)).
Defined.

Lemma C7_witness :
  cacheHoldsExportNames reexportAst reexportOracle (idCache emptyState)
  /\ reexportOracle 7%positive = Some symB
  /\ reexportOracle (getSourceFile (reexportAst 7%positive)) = Some symMod
  /\ exports symMod = Some [symC]
  /\ forallb hasDeclarations [symC] = true
  /\ (exists x, x ∈ [symC] /\ exportsSymbol reexportAst reexportOracle symB x)
  /\ exists (e : Symbol) (st' : State),
       firstExportOf reexportAst reexportOracle symB [symC] e
       /\ idFor escapeHtmlStd reexportAst reexportOracle 20 (Some 7%positive)
            emptyState = (Ret (symName e), st')
       /\ (st' = emptyState \/ st' = cached emptyState 7%positive (symName e)).
Proof.
  assert (Hinv : cacheHoldsExportNames reexportAst reexportOracle
                   (idCache emptyState)).
  { intros n id sym ms exps e H. simpl in H. rewrite lookup_empty in H.
    discriminate. }
  assert (Hx : exists x, x ∈ [symC]
                /\ exportsSymbol reexportAst reexportOracle symB x).
  { exists symC. split; [left|].
    exists [12%positive], 12%positive.
    split; [reflexivity|]. split; [left|].
    left. exists 13%positive, symB. repeat split. }
  split; [exact Hinv|].
  repeat (split; [reflexivity|]).
  split; [exact Hx|].
  exact (C7_idFor_returns_first_matching_export escapeHtmlStd reexportAst
           reexportOracle 19 7%positive symB symMod [symC] emptyState
           Hinv eq_refl eq_refl eq_refl eq_refl Hx).
Defined.

(** The re-exported import of the specification: [idFor] gives [b] the
    public name [c]. *)
Example reexport_idFor_b :
  fst (idFor escapeHtmlStd reexportAst reexportOracle 20 (Some 7%positive)
         emptyState) = Ret "c".
Proof. vm_compute. reflexivity. Qed.


(** C9, as stated, fails on [interface A {} const A = 1;]: neither
    declaration is built-in and the interface comes first, yet the
    interface's name is not the declaring occurrence, and nothing is logged:
    the value declaration decides. *)
Lemma C9_counterexample :
  isDefinition mergedAst symA 3%positive emptyState = (Ret false, emptyState)
  /\ isDefinition mergedAst symA 7%positive emptyState = (Ret true, emptyState)
  /\ ~ firstLocalDeclares mergedAst symA 3%positive emptyState.
Proof.
  split; [reflexivity|]. split; [reflexivity|].
  intros H.
  specialize (H [2; 6]%positive 2%positive [6%positive] eq_refl).
  simpl in H. specialize (H ltac:(lia) eq_refl).
  vm_compute in H. discriminate H.
Qed.

Lemma C9_witness :
  declarations symArrayLike = Some [110; 6]%positive
  /\ 1 < length [110; 6]%positive
  /\ List.filter (fun x => negb (isLibDeclaration builtinAst x))
       [110; 6]%positive = [6%positive]
  /\ isDefinition builtinAst symArrayLike 7%positive emptyState
     = (Ret true, emptyState).
Proof.
  split; [reflexivity|]. split; [simpl; lia|]. split; [reflexivity|].
  exact (C9_declaring_occurrence builtinAst symArrayLike 7%positive
           [110; 6]%positive 6%positive [] emptyState
           eq_refl ltac:(simpl; lia) eq_refl).
Defined.

(** C10, as stated, fails on [import x = require("m");]: the enclosing
    statement of [x] is an import-equals declaration, which has no module
    specifier, so [x] goes through the symbol rules: its id comes from
    [idFor], which caches it, and it is ["symbol-x"], not the bare text. *)
Lemma C10_counterexample :
  kind (importEqualsAst 2%positive) = ImportEqualsDeclaration
  /\ name (importEqualsAst 2%positive) = Some 3%positive
  /\ getStatement importEqualsAst 20 3%positive = Some 2%positive
  /\ visit escapeHtmlStd importEqualsAst importEqualsOracle 20 1%positive
       3%positive emptyState
     = (Ret tt,
        mkState (<[3%positive := "symbol-x"]> ∅) []
          [mkReplacement 7 8
             (createDefinition escapeHtmlStd 7 "symbol-x" (CString "x") 1)])
  /\ ~ anchorsBareText escapeHtmlStd importEqualsAst importEqualsOracle
         20 1%positive 3%positive emptyState.
Proof.
  split; [reflexivity|]. split; [reflexivity|]. split; [reflexivity|].
  split; [vm_compute; reflexivity|].
  intros (r & Hv & _).
  apply (f_equal (fun x : outcome unit * State =>
                    idCache (snd x) !! 3%positive)) in Hv.
  vm_compute in Hv. discriminate.
Qed.

Lemma C10_witness :
  kind (nestedAst 9%positive) = Identifier
  /\ getStatement nestedAst 20 9%positive = Some 5%positive
  /\ moduleSpecifier (nestedAst 5%positive) = Some 10%positive
  /\ parent (nestedAst 9%positive) = Some 8%positive
  /\ parent (nestedAst 8%positive) = Some 7%positive
  /\ name (nestedAst 8%positive) = Some 9%positive
  /\ exists (id : string) (r : Replacement),
       (kind (nestedAst 5%positive) = ImportDeclaration -> id = "symbol-x")
       /\ (kind (nestedAst 5%positive) <> ImportDeclaration -> id = "x")
       /\ (let anchor := createDefinition escapeHtmlStd 32 id (CString "x") 1 in
           r_with r = anchor
           \/ exists link,
                r_with r = createRef escapeHtmlStd 32 link (CTokens anchor) 1)
       /\ forall st : State,
            visit escapeHtmlStd nestedAst nestedOracle 20 1%positive 9%positive st
            = (Ret tt,
               mkState (idCache st) (console st) (replacements st ++ [r])).
Proof.
  repeat (split; [reflexivity|]).
  exact (C10_bound_name_id_without_allocator escapeHtmlStd nestedAst nestedOracle
           20 1%positive 9%positive 5%positive 10%positive 8%positive 7%positive
           eq_refl eq_refl eq_refl eq_refl eq_refl eq_refl).
Defined.

(** ** Further properties on the concrete programs *)

Lemma X1_witness :
  depth nestedAst 9%positive 7
  /\ exists s,
       getStatement nestedAst 8 9%positive = Some s
       /\ ancestorOrSelf nestedAst s 9%positive
       /\ (parent (nestedAst s) = None
           \/ exists p, parent (nestedAst s) = Some p
                        /\ isStatementContainer nestedAst p = true)
       /\ (forall k, getStatement nestedAst (S k) s = Some s)
       /\ (forall fuel s', getStatement nestedAst fuel 9%positive = Some s' -> s' = s).
Proof.
  assert (Hd : depth nestedAst 9%positive 7).
  { repeat (eapply depth_step; [reflexivity|]). apply depth_root. reflexivity. }
  split; [exact Hd|].
  exact (X1_getStatement_nearest_statement nestedAst 9%positive 7 Hd).
Defined.

Lemma X2_witness :
  depth paramsAst 5%positive 3
  /\ exists r,
       check paramsAst 5 (Some 5%positive) = Some r
       /\ match r with
          | Some prm =>
            kind (paramsAst prm) = ParameterDeclaration
            /\ ancestorOrSelf paramsAst prm 5%positive
          | None =>
            forall a, ancestorOrSelf paramsAst a 5%positive ->
                      kind (paramsAst a) <> ParameterDeclaration
          end.
Proof.
  assert (Hd : depth paramsAst 5%positive 3).
  { repeat (eapply depth_step; [reflexivity|]). apply depth_root. reflexivity. }
  split; [exact Hd|].
  exact (X2_check_finds_enclosing_parameter paramsAst 5%positive 3 Hd).
Defined.

Lemma params_parameterOf_f :
  parameterOf paramsAst paramsOracle 19 5%positive 3%positive emptyState.
Proof.
  split; [reflexivity|]. split; [reflexivity|].
  exists 2%positive, 1%positive, 4%positive, 2%positive.
  repeat split; reflexivity.
Defined.

Lemma params_parameterOf_g :
  parameterOf paramsAst paramsOracle 19 10%positive 8%positive emptyState.
Proof.
  split; [reflexivity|]. split; [reflexivity|].
  exists 7%positive, 1%positive, 9%positive, 7%positive.
  repeat split; reflexivity.
Defined.

Lemma X3_witness :
  parameterOf paramsAst paramsOracle 19 5%positive 3%positive emptyState
  /\ parameterOf paramsAst paramsOracle 19 10%positive 8%positive emptyState
  /\ idFor escapeHtmlStd paramsAst paramsOracle 19 (Some 3%positive) emptyState
     = (Ret "symbol-f", cached emptyState 3%positive "symbol-f")
  /\ idFor escapeHtmlStd paramsAst paramsOracle 19 (Some 8%positive) emptyState
     = (Ret "symbol-g", cached emptyState 8%positive "symbol-g")
  /\ getText (paramsAst 5%positive) = getText (paramsAst 10%positive)
  /\ "symbol-f" <> "symbol-g"
  /\ exists id1 id2,
       idFor escapeHtmlStd paramsAst paramsOracle 20 (Some 5%positive) emptyState
       = (Ret id1, cached (cached emptyState 3%positive "symbol-f") 5%positive id1)
       /\ idFor escapeHtmlStd paramsAst paramsOracle 20 (Some 10%positive)
            emptyState
          = (Ret id2,
             cached (cached emptyState 8%positive "symbol-g") 10%positive id2)
       /\ id1 = "symbol-f" +:+ "-" +:+ getText (paramsAst 5%positive)
       /\ id2 = "symbol-g" +:+ "-" +:+ getText (paramsAst 10%positive)
       /\ id1 <> id2.
Proof.
  assert (Hf : idFor escapeHtmlStd paramsAst paramsOracle 19 (Some 3%positive)
                 emptyState
               = (Ret "symbol-f", cached emptyState 3%positive "symbol-f")).
  { vm_compute. reflexivity. }
  assert (Hg : idFor escapeHtmlStd paramsAst paramsOracle 19 (Some 8%positive)
                 emptyState
               = (Ret "symbol-g", cached emptyState 8%positive "symbol-g")).
  { vm_compute. reflexivity. }
  assert (Hne : "symbol-f" <> "symbol-g") by discriminate.
  split; [exact params_parameterOf_f|]. split; [exact params_parameterOf_g|].
  split; [exact Hf|]. split; [exact Hg|]. split; [reflexivity|].
  split; [exact Hne|].
  exact (X3_parameter_ids_follow_functions escapeHtmlStd paramsAst paramsOracle
           19 5%positive 10%positive 3%positive 8%positive
           emptyState emptyState _ _ "symbol-f" "symbol-g"
           params_parameterOf_f params_parameterOf_g Hf Hg eq_refl Hne).
Defined.

Lemma nested_nestedNode_import :
  nestedNode nestedAst nestedOracle 19 9%positive emptyState.
Proof.
  split; [reflexivity|]. split; [reflexivity|].
  exists 5%positive, 4%positive.
  split; [reflexivity|]. split; [reflexivity|]. discriminate.
Defined.

Lemma nested_nestedNode_reference :
  nestedNode nestedAst nestedOracle 19 16%positive emptyState.
Proof.
  split; [reflexivity|]. split; [reflexivity|].
  exists 11%positive, 4%positive.
  split; [reflexivity|]. split; [reflexivity|]. discriminate.
Defined.

Lemma X4_witness :
  nestedNode nestedAst nestedOracle 19 9%positive emptyState
  /\ nestedNode nestedAst nestedOracle 19 16%positive emptyState
  /\ getText (nestedAst 9%positive) = getText (nestedAst 16%positive)
  /\ getStart (nestedAst 9%positive) <> getStart (nestedAst 16%positive)
  /\ exists id1 id2,
       idFor escapeHtmlStd nestedAst nestedOracle 20 (Some 9%positive) emptyState
       = (Ret id1, cached emptyState 9%positive id1)
       /\ idFor escapeHtmlStd nestedAst nestedOracle 20 (Some 16%positive)
            emptyState
          = (Ret id2, cached emptyState 16%positive id2)
       /\ id1 = "symbol-" +:+ escapeHtmlStd (getText (nestedAst 9%positive))
                +:+ "-" +:+ pretty (getStart (nestedAst 9%positive))
       /\ id1 <> id2.
Proof.
  assert (Hs : getStart (nestedAst 9%positive) <> getStart (nestedAst 16%positive)).
  { simpl. lia. }
  split; [exact nested_nestedNode_import|].
  split; [exact nested_nestedNode_reference|].
  split; [reflexivity|]. split; [exact Hs|].
  exact (X4_nested_ids_differ_by_offset escapeHtmlStd nestedAst nestedOracle
           19 9%positive 16%positive emptyState emptyState
           nested_nestedNode_import nested_nestedNode_reference eq_refl Hs).
Defined.

Lemma X5_witness :
  kind (importAst 6%positive) = Identifier
  /\ getStatement importAst 19 6%positive = Some 2%positive
  /\ moduleSpecifier (importAst 2%positive) = Some 7%positive
  /\ parent (importAst 6%positive) = Some 5%positive
  /\ parent (importAst 5%positive) = Some 4%positive
  /\ name (importAst 5%positive) = Some 6%positive
  /\ kind (importAst 2%positive) = ImportDeclaration
  /\ parent (importAst 2%positive) = Some 1%positive
  /\ kind (importAst 1%positive) = SourceFile
  /\ check importAst 19 (Some 6%positive) = Some None
  /\ idCache emptyState !! 6%positive = None
  /\ exportEntryOf importAst importOracle 6%positive emptyState
     = (Ret None, emptyState)
  /\ ((exists r,
         visit escapeHtmlStd importAst importOracle 19 1%positive 6%positive
           emptyState = (Ret tt, pushed emptyState r)
         /\ (r_with r
             = createDefinition escapeHtmlStd 9 "symbol-x" (CString "x") 1
             \/ exists link,
                  r_with r
                  = createRef escapeHtmlStd 9 link
                      (CTokens (createDefinition escapeHtmlStd 9 "symbol-x"
                                  (CString "x") 1)) 1))
      /\ idFor escapeHtmlStd importAst importOracle 20 (Some 6%positive)
           emptyState
         = (Ret "symbol-x", cached emptyState 6%positive "symbol-x")).
Proof.
  repeat (split; [reflexivity|]).
  exact (X5_top_level_import_anchor_matches_idFor escapeHtmlStd importAst
           importOracle 19 1%positive 6%positive 2%positive 7%positive
           5%positive 4%positive 1%positive emptyState emptyState
           eq_refl eq_refl eq_refl eq_refl eq_refl eq_refl eq_refl eq_refl
           eq_refl eq_refl eq_refl eq_refl).
Defined.

Lemma X6_witness :
  idFor escapeHtmlStd paramsAst paramsOracle 20 (Some 3%positive) emptyState
  = (Ret "symbol-f", stateWithF)
  /\ forEach [5; 10]%positive
       (visit escapeHtmlStd paramsAst paramsOracle 20 1%positive) stateWithF
     = (fst paramsRun, snd paramsRun)
  /\ idFor escapeHtmlStd paramsAst paramsOracle 1 (Some 3%positive)
       (snd paramsRun)
     = (Ret "symbol-f", snd paramsRun).
Proof.
  assert (Hid : idFor escapeHtmlStd paramsAst paramsOracle 20 (Some 3%positive)
                  emptyState = (Ret "symbol-f", stateWithF)).
  { vm_compute. reflexivity. }
  assert (Hrun : forEach [5; 10]%positive
                   (visit escapeHtmlStd paramsAst paramsOracle 20 1%positive)
                   stateWithF
                 = (fst paramsRun, snd paramsRun)).
  { apply surjective_pairing. }
  split; [exact Hid|]. split; [exact Hrun|].
  exact (X6_idFor_stable_across_visits escapeHtmlStd paramsAst paramsOracle
           20 0 20 1%positive 3%positive [5; 10]%positive
           emptyState stateWithF (snd paramsRun) "symbol-f" (fst paramsRun)
           Hid Hrun).
Defined.

Lemma X8_witness :
  declarations symArrayLike = Some [110; 6]%positive
  /\ forallb (isLibDeclaration builtinAst)
       (option_list (valueDeclaration symArrayLike) ++ [110; 6]%positive)
     = false
  /\ exists (b : bool) (st' : State),
       isDefinition builtinAst symArrayLike 7%positive emptyState = (Ret b, st')
       /\ idCache st' = idCache emptyState
       /\ replacements st' = replacements emptyState
       /\ (console st' = console emptyState
           \/ console st'
              = (console emptyState
                 ++ [("symbol has > 1 local declaration", symArrayLike)])%list).
Proof.
  split; [reflexivity|]. split; [reflexivity|].
  exact (X8_isDefinition_returns_under_guard builtinAst symArrayLike 7%positive
           110%positive [6%positive] emptyState eq_refl eq_refl).
Defined.

Lemma X9_witness :
  valueDeclaration symPromiseLike = None
  /\ declarations symPromiseLike = Some [101; 201]%positive
  /\ 1 < length [101; 201]%positive
  /\ forallb (isLibDeclaration libOnlyAst) [101; 201]%positive = true
  /\ isDefinition libOnlyAst symPromiseLike 7%positive emptyState
     = (Throw typeError, emptyState).
Proof.
  assert (Hlen : 1 < length [101; 201]%positive) by (simpl; lia).
  split; [reflexivity|]. split; [reflexivity|]. split; [exact Hlen|].
  split; [reflexivity|].
  exact (X9_isDefinition_all_builtin_throws libOnlyAst symPromiseLike 7%positive
           [101; 201]%positive emptyState eq_refl eq_refl Hlen eq_refl).
Defined.

Lemma X10_witness :
  kind (reexportAst 6%positive) = Identifier
  /\ getStatement reexportAst 20 6%positive = Some 2%positive
  /\ moduleSpecifier (reexportAst 2%positive) = Some 9%positive
  /\ parent (reexportAst 6%positive) = Some 5%positive
  /\ name (reexportAst 5%positive) <> Some 6%positive
  /\ propertyName (reexportAst 5%positive) = Some 6%positive
  /\ reexportOracle 6%positive = None
  /\ visit escapeHtmlStd reexportAst reexportOracle 20 1%positive 6%positive
       emptyState
     = (Ret tt,
        pushed emptyState
          (mkReplacement 9 10
             (createRef escapeHtmlStd 9 "m#a" (CString "a") 1))).
Proof.
  assert (Hname : name (reexportAst 5%positive) <> Some 6%positive)
    by discriminate.
  split; [reflexivity|]. split; [reflexivity|]. split; [reflexivity|].
  split; [reflexivity|]. split; [exact Hname|]. split; [reflexivity|].
  split; [reflexivity|].
  exact (X10_unresolved_rename_source_links_remote escapeHtmlStd reexportAst
           reexportOracle 20 1%positive 6%positive 2%positive 9%positive
           5%positive emptyState eq_refl eq_refl eq_refl eq_refl Hname
           eq_refl eq_refl).
Defined.

Lemma X11_witness :
  kind (importAst 9%positive) = Identifier
  /\ getStatement importAst 20 9%positive = Some 8%positive
  /\ parent (importAst 9%positive) = Some 8%positive
  /\ (moduleSpecifier (importAst 8%positive) = None
      \/ name (importAst 8%positive) <> Some 9%positive)
  /\ (propertyName (importAst 8%positive) <> Some 9%positive
      \/ moduleSpecifier (importAst 8%positive) = None)
  /\ visit escapeHtmlStd importAst noOracle 20 1%positive 9%positive emptyState
     = (Ret tt, emptyState).
Proof.
  split; [reflexivity|]. split; [reflexivity|]. split; [reflexivity|].
  split; [left; reflexivity|]. split; [right; reflexivity|].
  exact (X11_unresolved_identifier_untouched escapeHtmlStd importAst noOracle
           20 1%positive 9%positive 8%positive 8%positive emptyState
           eq_refl eq_refl eq_refl (or_introl eq_refl) (or_intror eq_refl)).
Defined.

Lemma X12_witness :
  kind (namespaceAst 10%positive) = Identifier
  /\ getStatement namespaceAst 20 10%positive = Some 7%positive
  /\ moduleSpecifier (namespaceAst 7%positive) = None
  /\ namespaceOracle 10%positive = Some symDefault
  /\ declarations symDefault = Some [5%positive]
  /\ valueDeclaration symDefault = Some 5%positive
  /\ name (namespaceAst 5%positive) = None
  /\ forallb (isLibDeclaration namespaceAst)
       (option_list (valueDeclaration symDefault) ++ [5%positive]) = false
  /\ visit escapeHtmlStd namespaceAst namespaceOracle 20 1%positive 10%positive
       emptyState
     = (Throw typeError, emptyState).
Proof.
  repeat (split; [reflexivity|]).
  exact (X12_nameless_declaration_throws escapeHtmlStd namespaceAst
           namespaceOracle 20 1%positive 10%positive 7%positive 5%positive
           5%positive [] symDefault emptyState
           eq_refl eq_refl eq_refl eq_refl eq_refl eq_refl eq_refl eq_refl).
Defined.

Lemma X13_witness :
  kind (mergedAst 7%positive) = Identifier
  /\ kind (mergedAst 3%positive) = Identifier
  /\ getStatement mergedAst 20 7%positive = Some 4%positive
  /\ getStatement mergedAst 20 3%positive = Some 2%positive
  /\ moduleSpecifier (mergedAst 4%positive) = None
  /\ moduleSpecifier (mergedAst 2%positive) = None
  /\ mergedOracle 7%positive = Some symA
  /\ mergedOracle 3%positive = Some symA
  /\ declarations symA = Some [2; 6]%positive
  /\ valueDeclaration symA = Some 6%positive
  /\ name (mergedAst 6%positive) = Some 7%positive
  /\ 3%positive <> 7%positive
  /\ isLibDeclaration mergedAst 6%positive = false
  /\ idFor escapeHtmlStd mergedAst mergedOracle 20 (Some 7%positive) emptyState
     = (Ret "symbol-A", stateWithA)
  /\ idCache stateWithA ⊆ idCache stateWithA
  /\ visit escapeHtmlStd mergedAst mergedOracle 20 1%positive 7%positive
       emptyState
     = (Ret tt,
        pushed stateWithA
          (mkReplacement 21 22
             (createDefinition escapeHtmlStd 21 "symbol-A" (CString "A") 1)))
  /\ visit escapeHtmlStd mergedAst mergedOracle 20 1%positive 3%positive stateWithA
     = (Ret tt,
        pushed stateWithA
          (mkReplacement 10 11
             (createRef escapeHtmlStd 10 "#symbol-A" (CString "A") 1))).
Proof.
  assert (Hid : idFor escapeHtmlStd mergedAst mergedOracle 20 (Some 7%positive)
                  emptyState = (Ret "symbol-A", stateWithA)).
  { vm_compute. reflexivity. }
  assert (Hsub : idCache stateWithA ⊆ idCache stateWithA) by reflexivity.
  assert (Hne : 3%positive <> 7%positive) by lia.
  do 11 (split; [reflexivity|]).
  split; [exact Hne|]. split; [reflexivity|].
  split; [exact Hid|]. split; [exact Hsub|].
  exact (X13_value_declaration_anchor_and_references_agree escapeHtmlStd
           mergedAst mergedOracle 20 19 1%positive 7%positive 3%positive
           4%positive 2%positive 6%positive 2%positive [6%positive] symA
           "symbol-A" emptyState stateWithA stateWithA
           eq_refl eq_refl eq_refl eq_refl eq_refl eq_refl eq_refl eq_refl
           eq_refl eq_refl eq_refl Hne eq_refl Hid Hsub).
Defined.

Lemma X14_witness :
  kind (nestedAst 9%positive) = Identifier
  /\ visit escapeHtmlStd nestedAst nestedOracle 20 1%positive 9%positive
       emptyState
     = (fst nestedVisit, snd nestedVisit)
  /\ (replacements (snd nestedVisit) = replacements emptyState
      \/ exists r,
           replacements (snd nestedVisit)
           = (replacements emptyState ++ [r])%list
           /\ List.filter (fun t => negb (t_safe t)) (r_with r)
              = [mkToken 32 false "x"]).
Proof.
  assert (Hres : visit escapeHtmlStd nestedAst nestedOracle 20 1%positive
                   9%positive emptyState
                 = (fst nestedVisit, snd nestedVisit)).
  { apply surjective_pairing. }
  split; [reflexivity|]. split; [exact Hres|].
  exact (X14_identifier_text_kept escapeHtmlStd nestedAst nestedOracle
           20 1%positive 9%positive emptyState (snd nestedVisit)
           (fst nestedVisit) eq_refl Hres).
Defined.


Lemma X16_witness :
  idCache emptyState !! 6%positive = None
  /\ bareOracle (getSourceFile (importAst 6%positive)) = Some symMainBare
  /\ exports symMainBare = Some ([] ++ symBare :: [])%list
  /\ forallb hasDeclarations [] = true
  /\ forallb
       (fun x => negb (exportMatches importAst bareOracle
                         (bareOracle 6%positive) x)) [] = true
  /\ declarations symBare = None
  /\ idFor escapeHtmlStd importAst bareOracle 1 (Some 6%positive) emptyState
     = (Throw typeError, emptyState).
Proof.
  repeat (split; [reflexivity|]).
  exact (X16_idFor_throws_on_export_without_declarations escapeHtmlStd importAst
           bareOracle 0 6%positive symMainBare symBare [] [] emptyState
           eq_refl eq_refl eq_refl eq_refl eq_refl eq_refl).
Defined.

Lemma X17_witness :
  loadLibFile oneLibFile sourceFileByName esnextName ∅
  = (Ret (Some 25%positive), loadedCache)
  /\ ∅ ⊆ loadedCache
  /\ loadLibFile (fun _ => None) sourceFileByName esnextName loadedCache
     = (Ret (Some 25%positive), loadedCache).
Proof.
  assert (Hload : loadLibFile oneLibFile sourceFileByName esnextName ∅
                  = (Ret (Some 25%positive), loadedCache)).
  { vm_compute. reflexivity. }
  split; [exact Hload|].
  exact (X17_loadLibFile_memoizes oneLibFile sourceFileByName esnextName ∅
           loadedCache 25%positive (fun _ => None) sourceFileByName Hload).
Defined.

Lemma X18_witness :
  fileExists "/main.ts" "/@ts:lib/lib.es5.d.ts" = true
  /\ fst (hostGetSourceFile oneLibFile sourceFileByName "/main.ts" 1%positive
            "/@ts:lib/lib.es5.d.ts" ∅) <> Ret None.
Proof.
  split; [reflexivity|].
  exact (X18_existing_files_are_never_null oneLibFile sourceFileByName
           "/main.ts" "/@ts:lib/lib.es5.d.ts" 1%positive ∅ eq_refl).
Defined.
